(** * Smart attendance system: schedule resolution, attendance ledger,
      gallery matching and the recognition pipeline.

    Shallow embedding of [firebase.py] (class [AttendanceSystemSchema]) and
    [face_recognition.py] (class [FaceRecognitionApp]).

    Conventions of the embedding:
    - a Realtime Database node holding pushed children is the list of its
      children in key order; [push] keys grow with time, so a pushed child
      goes to the end of the list;
    - [Reference.get()] yields [None] for a node without data, which the
      code tests with [if not student_query] and [if existing_query];
    - a calendar date is its proleptic Gregorian ordinal
      ([date.toordinal()], day 1 is Monday 0001-01-01), so that
      [date.isoformat()] strings are equal exactly when the ordinals are;
    - a time of day is a number of microseconds since midnight;
    - float distances are the rationals they denote. *)

From Stdlib Require Import ZArith QArith Qabs Bool List String Ascii Lia Lqa.
Import ListNotations.
Local Open Scope string_scope.
Local Open Scope list_scope.
Local Open Scope Z_scope.

Set Implicit Arguments.

(** ** Exceptions *)

Inductive exn : Type :=
| AttributeError   (* [None.items()] *)
| IndexError.      (* list index out of range *)

Inductive result (A : Type) : Type :=
| Ok (a : A)
| Raise (e : exn).

Arguments Ok {A} a.
Arguments Raise {A} e.

Definition bind {A B} (r : result A) (k : A -> result B) : result B :=
  match r with
  | Ok a => k a
  | Raise e => Raise e
  end.

Notation "x <- r ;; k" := (bind r (fun x => k))
  (at level 61, r at next level, right associativity).

(** ** Dates and times, as [datetime] has them *)

Module Datetime.

Definition MICROS_PER_SECOND : Z := 1000000.
Definition MICROS_PER_MINUTE : Z := 60 * MICROS_PER_SECOND.
Definition MICROS_PER_HOUR : Z := 60 * MICROS_PER_MINUTE.
Definition MICROS_PER_DAY : Z := 24 * MICROS_PER_HOUR.

(** [datetime.time] as [strptime(..., '%H:%M').time()] builds it. *)
Record time : Type := mk_time { hour : Z; minute : Z }.

Definition valid_time (t : time) : Prop :=
  0 <= hour t < 24 /\ 0 <= minute t < 60.

Definition time_micros (t : time) : Z :=
  hour t * MICROS_PER_HOUR + minute t * MICROS_PER_MINUTE.

(** [datetime.datetime]: the date and the time of day. *)
Record datetime : Type := mk_datetime { date : Z; micros : Z }.

Definition valid_datetime (d : datetime) : Prop :=
  0 <= micros d < MICROS_PER_DAY.

(** [datetime.combine(d, t)] *)
Definition combine (d : Z) (t : time) : datetime :=
  {| date := d; micros := time_micros t |}.

(** [dt + timedelta(minutes=m)]: the sum, carried into the date. *)
Definition add_minutes (d : datetime) (m : Z) : datetime :=
  let total := micros d + m * MICROS_PER_MINUTE in
  {| date := date d + total / MICROS_PER_DAY;
     micros := total mod MICROS_PER_DAY |}.

(** [a <= b] on datetimes compares date first, then time of day. *)
Definition leb (a b : datetime) : bool :=
  (date a <? date b) || ((date a =? date b) && (micros a <=? micros b)).

Inductive weekday : Type :=
| Monday | Tuesday | Wednesday | Thursday | Friday | Saturday | Sunday.

Definition weekday_eqb (a b : weekday) : bool :=
  match a, b with
  | Monday, Monday | Tuesday, Tuesday | Wednesday, Wednesday
  | Thursday, Thursday | Friday, Friday | Saturday, Saturday
  | Sunday, Sunday => true
  | _, _ => false
  end.

(** [timestamp.strftime('%A')]: [date.weekday()] is
    [(toordinal() + 6) % 7] with Monday as 0. *)
Definition weekday_of (d : Z) : weekday :=
  match (d + 6) mod 7 with
  | 0 => Monday
  | 1 => Tuesday
  | 2 => Wednesday
  | 3 => Thursday
  | 4 => Friday
  | 5 => Saturday
  | _ => Sunday
  end.

Definition strftime_A (d : datetime) : weekday := weekday_of (date d).

(** A time of day given as hours, minutes and seconds. *)
Definition hms (h m s : Z) : Z :=
  h * MICROS_PER_HOUR + m * MICROS_PER_MINUTE + s * MICROS_PER_SECOND.

End Datetime.

Import Datetime.

(** ** The persistent store *)

(** A schedule entry, with its two times as [strptime] with ['%H:%M']
    parses them. A string that [strptime] refuses (lines 117-118 then raise
    [ValueError]) has no counterpart here: statements that conclude that
    nothing is raised assume [valid_time] of the times they meet. *)
Record class_time : Type := mk_class_time {
  start_time : time;
  end_time : time
}.

Record student : Type := mk_student {
  student_id : string;
  enrolled_courses : list string
}.

Record course : Type := mk_course {
  course_id : string;
  schedule : list (weekday * class_time)
}.

Record attendance_record : Type := mk_attendance {
  rec_course_id : string;
  rec_student_id : string;
  rec_date : Z;
  rec_timestamp : datetime;
  rec_status : string
}.

Record store : Type := mk_store {
  students : list student;
  courses : list course;
  attendance : list attendance_record
}.

(** [x in list] on strings *)
Definition str_in (x : string) (l : list string) : bool :=
  existsb (String.eqb x) l.

(** [schedule[day]] with [day in schedule] *)
Fixpoint schedule_get (day : weekday) (sch : list (weekday * class_time))
  : option class_time :=
  match sch with
  | [] => None
  | (d, ct) :: rest => if weekday_eqb day d then Some ct else schedule_get day rest
  end.

(** [order_by_child('student_id').equal_to(student_id).get()] *)
Definition students_by_id (s : store) (sid : string) : list student :=
  filter (fun st => String.eqb (student_id st) sid) (students s).

Definition attendance_by_student (s : store) (sid : string)
  : list attendance_record :=
  filter (fun r => String.eqb (rec_student_id r) sid) (attendance s).

(** ** ScheduleResolver: [find_current_course] *)

Definition GRACE_MINUTES : Z := 15.

(** The test of line 123 for one course's class time. *)
Definition in_class_window (timestamp : datetime) (ct : class_time) : bool :=
  let class_start_datetime := combine (date timestamp) (start_time ct) in
  let class_end_datetime := combine (date timestamp) (end_time ct) in
  leb class_start_datetime timestamp
  && leb timestamp (add_minutes class_end_datetime GRACE_MINUTES).

(** One turn of the loop over [all_courses.items()]: [true] when the
    loop returns at this course, [false] when it goes on to the next. *)
Definition course_active (enrolled : list string) (day : weekday)
    (timestamp : datetime) (c : course) : bool :=
  if negb (str_in (course_id c) enrolled) then false
  else match schedule_get day (schedule c) with
       | None => false
       | Some ct => in_class_window timestamp ct
       end.

Fixpoint scan_courses (enrolled : list string) (day : weekday)
    (timestamp : datetime) (cs : list course) : option string :=
  match cs with
  | [] => None
  | c :: rest =>
      if negb (str_in (course_id c) enrolled) then
        scan_courses enrolled day timestamp rest
      else
        match schedule_get day (schedule c) with
        | None => scan_courses enrolled day timestamp rest
        | Some ct =>
            if in_class_window timestamp ct then Some (course_id c)
            else scan_courses enrolled day timestamp rest
        end
  end.

Definition find_current_course (s : store) (sid : string)
    (timestamp : datetime) : result (option string) :=
  match students_by_id s sid with
  | [] => Ok None
  | student_data :: _ =>
      let enrolled := enrolled_courses student_data in
      let day := strftime_A timestamp in
      match courses s with
      | [] => Raise AttributeError
      | all_courses => Ok (scan_courses enrolled day timestamp all_courses)
      end
  end.

(** ** AttendanceLedger: [mark_attendance] *)

(** What [mark_attendance] prints. *)
Inductive printed : Type :=
| NoActiveCourseFound (sid : string) (timestamp : datetime)
| AttendanceAlreadyMarked (sid cid : string) (day : Z)
| AttendanceMarked (sid cid : string).

(** [if not course_id]: [None] and the empty string are both falsy. *)
Definition falsy (course_id : option string) : bool :=
  match course_id with
  | None => true
  | Some cid => String.eqb cid ""
  end.

(** The test of lines 145-146 on one record of the student. *)
Definition same_course_and_date (cid : string) (day : Z)
    (r : attendance_record) : bool :=
  String.eqb (rec_course_id r) cid && (rec_date r =? day).

(** [attendance_ref.push().set(attendance_data)] *)
Definition push_attendance (s : store) (r : attendance_record) : store :=
  {| students := students s;
     courses := courses s;
     attendance := attendance s ++ [r] |}.

Record mark_outcome : Type := mk_outcome {
  returned : bool;
  stored : store;
  stdout : list printed
}.

Definition mark_attendance (s : store) (sid : string) (timestamp : datetime)
  : result mark_outcome :=
  found <- find_current_course s sid timestamp ;;
  match found with
  | None =>
      Ok {| returned := false; stored := s;
            stdout := [NoActiveCourseFound sid timestamp] |}
  | Some cid =>
      if falsy (Some cid) then
        Ok {| returned := false; stored := s;
              stdout := [NoActiveCourseFound sid timestamp] |}
      else
        let existing_query := attendance_by_student s sid in
        if existsb (same_course_and_date cid (date timestamp)) existing_query
        then
          Ok {| returned := false; stored := s;
                stdout := [AttendanceAlreadyMarked sid cid (date timestamp)] |}
        else
          let attendance_data :=
            {| rec_course_id := cid;
               rec_student_id := sid;
               rec_date := date timestamp;
               rec_timestamp := timestamp;
               rec_status := "present" |} in
          Ok {| returned := true;
                stored := push_attendance s attendance_data;
                stdout := [AttendanceMarked sid cid] |}
  end.

(** The records the ledger's invariant counts. *)
Definition present_records (s : store) (sid cid : string) (day : Z)
  : list attendance_record :=
  filter (fun r => String.eqb (rec_student_id r) sid
                   && same_course_and_date cid day r
                   && String.eqb (rec_status r) "present")
         (attendance s).

(** ** File names of the gallery directory *)

Module Path.

Definition lower_ascii (c : ascii) : ascii :=
  let n := nat_of_ascii c in
  if ((65 <=? n) && (n <=? 90))%nat then ascii_of_nat (n + 32) else c.

(** [str.lower()] on ASCII text *)
Fixpoint lower (s : string) : string :=
  match s with
  | EmptyString => EmptyString
  | String c rest => String (lower_ascii c) (lower rest)
  end.

(** [str.endswith(suffix)] *)
Definition endswith (s suffix : string) : bool :=
  let n := String.length s in
  let m := String.length suffix in
  ((m <=? n)%nat && String.eqb (substring (n - m) m s) suffix)%bool.

(** [filename.lower().endswith(('.jpg', '.jpeg', '.png'))] *)
Definition is_image_name (filename : string) : bool :=
  let l := lower filename in
  endswith l ".jpg" || endswith l ".jpeg" || endswith l ".png".

(** [str.rfind('.')] *)
Fixpoint rfind_dot (s : string) : option nat :=
  match s with
  | EmptyString => None
  | String c rest =>
      match rfind_dot rest with
      | Some i => Some (S i)
      | None => if Ascii.eqb c "." then Some O else None
      end
  end.

(** Whether some character of [s] is not a dot. *)
Fixpoint has_non_dot (s : string) : bool :=
  match s with
  | EmptyString => false
  | String c rest => negb (Ascii.eqb c ".") || has_non_dot rest
  end.

(** [os.path.splitext] on a name without directory separators, as
    [os.listdir] returns them: the extension starts at the last dot,
    unless only dots come before it. *)
Definition splitext (p : string) : string * string :=
  match rfind_dot p with
  | None => (p, "")
  | Some dotIndex =>
      if has_non_dot (substring 0 dotIndex p) then
        (substring 0 dotIndex p,
         substring dotIndex (String.length p - dotIndex) p)
      else (p, "")
  end.

End Path.

(** ** Gallery and RecognitionPipeline: [FaceRecognitionApp] *)

(** What the application writes to its logger. *)
Inductive logged : Type :=
| ErrorProcessing (filename : string)
| InfoLoaded (known_faces_count : nat)
| ErrorLoadingKnownFaces
| InfoSendingBlink
| ErrorSerialNotAvailable
| ErrorTriggeringLED
| InfoAttendanceMarked (sid : string)
| InfoLEDBlinkConfirmed
| ErrorFailedToTriggerLED
| ErrorMarkingAttendance (e : exn)
| ErrorInFaceRecognition (e : exn).

(** The serial line to the ESP32-CAM: whether it is open, whether the
    next [write] raises, and what has been written so far. *)
Record serial : Type := mk_serial {
  is_open : bool;
  write_raises : bool;
  written : list string
}.

Definition box : Type := (Z * Z * Z * Z)%type.

Inductive color : Type := Red | Green.

Section Recognition.

(** The face embedding and its distance are an external capability:
    [face_recognition.face_distance] is the Euclidean norm of the
    difference of two encodings. *)
Variable encoding : Type.
Variable face_distance : encoding -> encoding -> Q.

(** A file of the gallery directory: [load_image_file] raises on it, or
    [face_encodings] finds these faces in it. *)
Inductive image_file : Type :=
| Undecodable
| Decoded (face_encodings : list encoding).

Record app : Type := mk_app {
  known_face_encodings : list encoding;
  known_face_names : list string;
  serial_connection : option serial;
  firebase_db : store;
  console : list printed;
  logger : list logged
}.

Definition log (a : app) (m : logged) : app :=
  {| known_face_encodings := known_face_encodings a;
     known_face_names := known_face_names a;
     serial_connection := serial_connection a;
     firebase_db := firebase_db a;
     console := console a;
     logger := logger a ++ [m] |}.

Definition append_known (a : app) (e : encoding) (name : string) : app :=
  {| known_face_encodings := known_face_encodings a ++ [e];
     known_face_names := known_face_names a ++ [name];
     serial_connection := serial_connection a;
     firebase_db := firebase_db a;
     console := console a;
     logger := logger a |}.

(** The body of the loop of [load_known_faces] for one directory entry:
    the application and the count afterwards. *)
Definition load_one (a : app) (known_faces_count : nat)
    (entry : string * image_file) : app * nat :=
  let (filename, file) := entry in
  if Path.is_image_name filename then
    match file with
    | Undecodable => (log a (ErrorProcessing filename), known_faces_count)
    | Decoded [] => (a, known_faces_count)
    | Decoded (face_encoding :: _) =>
        let student_id := fst (Path.splitext filename) in
        (append_known a face_encoding student_id, S known_faces_count)
    end
  else (a, known_faces_count).

Fixpoint load_loop (a : app) (known_faces_count : nat)
    (entries : list (string * image_file)) : app * nat :=
  match entries with
  | [] => (a, known_faces_count)
  | entry :: rest =>
      let (a', n) := load_one a known_faces_count entry in
      load_loop a' n rest
  end.

(** [load_known_faces]; the listing is [None] when [os.listdir] raises. *)
Definition load_known_faces (a : app)
    (listing : option (list (string * image_file))) : app :=
  match listing with
  | None => log a ErrorLoadingKnownFaces
  | Some entries =>
      let (a', n) := load_loop a O entries in
      log a' (InfoLoaded n)
  end.

(** [face_recognition.compare_faces]:
    [list(face_distance(known, face) <= tolerance)] *)
Definition compare_faces (known : list encoding) (face : encoding)
    (tolerance : Q) : list bool :=
  map (fun k => Qle_bool (face_distance k face) tolerance) known.

Definition TOLERANCE : Q := 5 # 10.

(** [matches.index(True)], with [True in matches] *)
Fixpoint index_true (matches : list bool) : option nat :=
  match matches with
  | [] => None
  | true :: _ => Some O
  | false :: rest => option_map S (index_true rest)
  end.

(** Lines 140-151: the student a face is taken for, if any. *)
Definition match_face (a : app) (face_encoding : encoding)
  : result (option string) :=
  let matches :=
    compare_faces (known_face_encodings a) face_encoding TOLERANCE in
  match index_true matches with
  | None => Ok None
  | Some first_match_index =>
      match nth_error (known_face_names a) first_match_index with
      | None => Raise IndexError
      | Some student_id => Ok (Some student_id)
      end
  end.

Definition set_serial (a : app) (sc : option serial) : app :=
  {| known_face_encodings := known_face_encodings a;
     known_face_names := known_face_names a;
     serial_connection := sc;
     firebase_db := firebase_db a;
     console := console a;
     logger := logger a |}.

(** [trigger_led_blink] *)
Definition trigger_led_blink (a : app) : bool * app :=
  match serial_connection a with
  | Some sc =>
      if is_open sc then
        let a1 := log a InfoSendingBlink in
        if write_raises sc then (false, log a1 ErrorTriggeringLED)
        else
          let sc' := {| is_open := is_open sc;
                        write_raises := write_raises sc;
                        written := written sc ++ [("blink" ++ String "010" "")%string] |} in
          (true, set_serial a1 (Some sc'))
      else (false, log a ErrorSerialNotAvailable)
  | None => (false, log a ErrorSerialNotAvailable)
  end.

Definition after_mark (a : app) (o : mark_outcome) : app :=
  {| known_face_encodings := known_face_encodings a;
     known_face_names := known_face_names a;
     serial_connection := serial_connection a;
     firebase_db := stored o;
     console := console a ++ stdout o;
     logger := logger a |}.

(** Lines 155-164: what follows a match. [now] is what [datetime.now()]
    returns when [mark_attendance] is entered. *)
Definition attend (a : app) (sid : string) (now : datetime) : app :=
  match mark_attendance (firebase_db a) sid now with
  | Raise e => log a (ErrorMarkingAttendance e)
  | Ok o =>
      let a1 := after_mark a o in
      if returned o then
        let a2 := log a1 (InfoAttendanceMarked sid) in
        let (blinked, a3) := trigger_led_blink a2 in
        if blinked then log a3 InfoLEDBlinkConfirmed
        else log a3 ErrorFailedToTriggerLED
      else a1
  end.

Record detected_face : Type := mk_face {
  location : box;
  face_encoding : encoding;
  now : datetime
}.

Definition annotation : Type := (box * string * color)%type.

(** One turn of the loop of [recognize_faces]. *)
Definition recognize_face (a : app) (f : detected_face)
  : result (app * annotation) :=
  m <- match_face a (face_encoding f) ;;
  match m with
  | None => Ok (a, (location f, "Unknown", Red))
  | Some student_id =>
      Ok (attend a student_id (now f), (location f, student_id, Green))
  end.

(** [recognize_faces] on the faces detected in a frame: the
    application afterwards and what was drawn on the frame. An
    exception of the loop is logged and the frame returned as it is. *)
Fixpoint recognize_loop (a : app) (drawn : list annotation)
    (faces : list detected_face) : app * list annotation :=
  match faces with
  | [] => (a, drawn)
  | f :: rest =>
      match recognize_face a f with
      | Raise e => (log a (ErrorInFaceRecognition e), drawn)
      | Ok (a', ann) => recognize_loop a' (drawn ++ [ann]) rest
      end
  end.

Definition recognize_faces (a : app) (frame : option (list detected_face))
  : app * option (list annotation) :=
  match frame with
  | None => (a, None)
  | Some faces =>
      let (a', drawn) := recognize_loop a [] faces in
      (a', Some drawn)
  end.

End Recognition.

(** ** Construction of the application: [__init__] *)

(** What [__init__] logs before the gallery is loaded. *)
Inductive startup_logged : Type :=
| InfoSerialEstablished
| ErrorSerialFailed
| ErrorFirebaseFailed.

(** The application once constructed, or the exception "Firebase
    connection failed"; with the lines logged before the load. *)
Inductive startup (encoding : Type) : Type :=
| Started (lines : list startup_logged) (a : app encoding)
| ConnectionFailed (lines : list startup_logged).

Arguments Started {encoding} lines a.
Arguments ConnectionFailed {encoding} lines.

(** [__init__]: [opened] is the serial connection, [None] when
    [serial.Serial] raises; [db] is what [setup_firebase] returns;
    [listing] is the gallery directory as [load_known_faces] finds it. *)
Definition init {encoding : Type} (opened : option serial)
    (db : option store) (listing : option (list (string * image_file encoding)))
  : startup encoding :=
  let lines :=
    match opened with
    | Some _ => [InfoSerialEstablished]
    | None => [ErrorSerialFailed]
    end in
  match db with
  | None => ConnectionFailed (lines ++ [ErrorFirebaseFailed])
  | Some s =>
      Started lines
        (load_known_faces
           {| known_face_encodings := [];
              known_face_names := [];
              serial_connection := opened;
              firebase_db := s;
              console := [];
              logger := [] |}
           listing)
  end.

(** ** Administration: [create_student], [create_course],
       [enroll_student_to_course]

    The rows as these functions write them; [find_current_course] and
    [mark_attendance] read the part of them that [view] keeps. *)

Record student_row : Type := mk_student_row {
  row_student : student;
  student_name : string;
  student_email : string
}.

Record course_row : Type := mk_course_row {
  row_course : course;
  course_name : string;
  instructor : string;
  enrolled_students : list string
}.

Record database : Type := mk_database {
  student_rows : list student_row;
  course_rows : list course_row;
  attendance_rows : list attendance_record
}.

Definition view (d : database) : store :=
  {| students := map row_student (student_rows d);
     courses := map row_course (course_rows d);
     attendance := attendance_rows d |}.

(** [create_student]: the row and the database with it pushed. *)
Definition create_student (d : database) (sid name email : string)
  : student_row * database :=
  let student_data :=
    {| row_student := {| student_id := sid; enrolled_courses := [] |};
       student_name := name;
       student_email := email |} in
  (student_data,
   {| student_rows := student_rows d ++ [student_data];
      course_rows := course_rows d;
      attendance_rows := attendance_rows d |}).

(** [create_course] *)
Definition create_course (d : database) (cid cname instructor_name : string)
    (sched : list (weekday * class_time)) : course_row * database :=
  let course_data :=
    {| row_course := {| course_id := cid; schedule := sched |};
       course_name := cname;
       instructor := instructor_name;
       enrolled_students := [] |} in
  (course_data,
   {| student_rows := student_rows d;
      course_rows := course_rows d ++ [course_data];
      attendance_rows := attendance_rows d |}).

Definition is_student (sid : string) (r : student_row) : bool :=
  String.eqb (student_id (row_student r)) sid.

Definition is_course (cid : string) (r : course_row) : bool :=
  String.eqb (course_id (row_course r)) cid.

(** [ref.child(key)...set(value)] for the first key of a query: the
    first row that passes [p] is rewritten by [f]. *)
Fixpoint update_first {A : Type} (p : A -> bool) (f : A -> A) (l : list A)
  : list A :=
  match l with
  | [] => []
  | x :: rest => if p x then f x :: rest else x :: update_first p f rest
  end.

Definition set_enrolled_courses (l : list string) (r : student_row)
  : student_row :=
  {| row_student := {| student_id := student_id (row_student r);
                       enrolled_courses := l |};
     student_name := student_name r;
     student_email := student_email r |}.

Definition set_enrolled_students (l : list string) (r : course_row)
  : course_row :=
  {| row_course := row_course r;
     course_name := course_name r;
     instructor := instructor r;
     enrolled_students := l |}.

Inductive admin_printed : Type :=
| StudentOrCourseNotFound.

(** [enroll_student_to_course] *)
Definition enroll_student_to_course (d : database) (sid cid : string)
  : database * list admin_printed :=
  let student_query := filter (is_student sid) (student_rows d) in
  let course_query := filter (is_course cid) (course_rows d) in
  match student_query, course_query with
  | st :: _, co :: _ =>
      let student_courses := enrolled_courses (row_student st) in
      let d1 :=
        if str_in cid student_courses then d
        else
          {| student_rows :=
               update_first (is_student sid)
                 (set_enrolled_courses (student_courses ++ [cid]))
                 (student_rows d);
             course_rows := course_rows d;
             attendance_rows := attendance_rows d |} in
      let course_students := enrolled_students co in
      let d2 :=
        if str_in sid course_students then d1
        else
          {| student_rows := student_rows d1;
             course_rows :=
               update_first (is_course cid)
                 (set_enrolled_students (course_students ++ [sid]))
                 (course_rows d1);
             attendance_rows := attendance_rows d1 |} in
      (d2, [])
  | _, _ => (d, [StudentOrCourseNotFound])
  end.


(** * Vocabulary of the properties *)

(** The instant a datetime denotes, in microseconds. *)
Definition instant (d : datetime) : Z := date d * MICROS_PER_DAY + micros d.

(** The store of the example: one student enrolled in one course that
    meets on Monday from 09:00 to 10:00. *)
Definition monday_store : store :=
  {| students := [ {| student_id := "000004";
                      enrolled_courses := ["CSE002"] |} ];
     courses := [ {| course_id := "CSE002";
                     schedule := [ (Monday,
                                    {| start_time := mk_time 9 0;
                                       end_time := mk_time 10 0 |}) ] |} ];
     attendance := [] |}.

(** Some record of the student, of any status, for that course and day. *)
Definition has_record (s : store) (sid cid : string) (day : Z) : Prop :=
  exists r, In r (attendance s) /\ rec_student_id r = sid
            /\ rec_course_id r = cid /\ rec_date r = day.

(** Some record of the student for that course and day with status
    [present]. *)
Definition has_present_record (s : store) (sid cid : string) (day : Z)
  : Prop :=
  exists r, In r (attendance s) /\ rec_student_id r = sid
            /\ rec_course_id r = cid /\ rec_date r = day
            /\ rec_status r = "present".

(** Monday 2024-01-08, as [date.toordinal()] numbers it. *)
Definition monday_2024_01_08 : Z := 738893.

Definition at_time (day h m s : Z) : datetime :=
  {| date := day; micros := hms h m s |}.

(** The Monday store with the student already recorded as absent from
    the class of 2024-01-08. *)
Definition absent_store : store :=
  {| students := students monday_store;
     courses := courses monday_store;
     attendance := [ {| rec_course_id := "CSE002";
                        rec_student_id := "000004";
                        rec_date := monday_2024_01_08;
                        rec_timestamp := at_time monday_2024_01_08 9 1 0;
                        rec_status := "absent" |} ] |}.

(** The Monday store with the student already marked present on
    2024-01-08. *)
Definition marked_store : store :=
  {| students := students monday_store;
     courses := courses monday_store;
     attendance := [ {| rec_course_id := "CSE002";
                        rec_student_id := "000004";
                        rec_date := monday_2024_01_08;
                        rec_timestamp := at_time monday_2024_01_08 9 1 0;
                        rec_status := "present" |} ] |}.

(** A store in which a student is registered and no course exists yet,
    as after [create_student] alone. *)
Definition student_only_store : store :=
  {| students := [ {| student_id := "000004"; enrolled_courses := [] |} ];
     courses := [];
     attendance := [] |}.

(** The sentence of the specification on repeated marks: the second
    mark is refused exactly when a record with status [present] exists. *)
Definition already_marked_iff_present (s : store) (sid cid : string)
    (timestamp : datetime) : Prop :=
  (exists o, mark_attendance s sid timestamp = Ok o
             /\ stdout o = [AttendanceAlreadyMarked sid cid (date timestamp)])
  <-> has_present_record s sid cid (date timestamp).

(** *** Gallery *)

Section GalleryVocabulary.

Variable encoding : Type.
Variable face_distance : encoding -> encoding -> Q.

(** The known encoding at index [i] is a closest one to [face], at
    distance [d]. *)
Definition closest_at (known : list encoding) (face : encoding)
    (i : nat) (d : Q) : Prop :=
  (exists e, nth_error known i = Some e /\ (face_distance e face == d)%Q)
  /\ (forall e, In e known -> (d <= face_distance e face)%Q).

(** The sentence of the specification on the threshold: the label of
    the closest identity is returned exactly when its distance is
    below the tolerance, and unknown from the tolerance on. *)
Definition match_is_closest_below (a : app encoding) (face : encoding)
  : Prop :=
  forall i d label,
    closest_at (known_face_encodings a) face i d ->
    nth_error (known_face_names a) i = Some label ->
    (match_face face_distance a face = Ok (Some label)
     <-> (d < TOLERANCE)%Q)
    /\ ((TOLERANCE <= d)%Q -> match_face face_distance a face = Ok None).

(** The identity a directory entry yields: none for a name without an
    image extension, a file that does not decode or has no face. *)
Definition identity_of (entry : string * image_file encoding)
  : option (string * encoding) :=
  if Path.is_image_name (fst entry) then
    match snd entry with
    | Decoded (e :: _) => Some (fst (Path.splitext (fst entry)), e)
    | _ => None
    end
  else None.

Definition gallery_of (entries : list (string * image_file encoding))
  : list (string * encoding) :=
  flat_map (fun entry => match identity_of entry with
                         | Some i => [i]
                         | None => []
                         end) entries.

End GalleryVocabulary.

(** Encodings of one coordinate, with the Euclidean distance on them. *)
Definition point_distance (a b : Q) : Q := Qabs (a - b).

Definition fresh_app (sc : option serial) (db : store) : app Q :=
  {| known_face_encodings := [];
     known_face_names := [];
     serial_connection := sc;
     firebase_db := db;
     console := [];
     logger := [] |}.

(** A gallery directory with a text file, a picture that does not
    decode, a picture without a face and two good pictures. *)
Definition example_listing : list (string * image_file Q) :=
  [ ("notes.txt", Decoded [1 # 1]%Q);
    ("000001.JPG", Decoded [4 # 10; 9 # 10]%Q);
    ("broken.png", Undecodable Q);
    ("empty.jpeg", Decoded []);
    ("000002.png", Decoded [3 # 10]%Q) ].

(** The application after loading that directory: "000001" at 0.4 and
    "000002" at 0.3 from the origin. *)
Definition two_faces_app (sc : option serial) (db : store) : app Q :=
  load_known_faces (fresh_app sc db) (Some example_listing).

Definition open_serial : serial :=
  {| is_open := true; write_raises := false; written := [] |}.

Definition failing_serial : serial :=
  {| is_open := true; write_raises := true; written := [] |}.

(** A store whose student is in the example gallery. *)
Definition gallery_store : store :=
  {| students := [ {| student_id := "000001";
                      enrolled_courses := ["CSE002"] |} ];
     courses := courses monday_store;
     attendance := [] |}.

(** *** Ledger *)

(** The records of a student for a course on a day, of any status. *)
Definition records_for (s : store) (sid cid : string) (day : Z)
  : list attendance_record :=
  filter (fun r => String.eqb (rec_student_id r) sid
                   && same_course_and_date cid day r)
         (attendance s).

(** At most one record per student, course and day. *)
Definition unique_attendance (s : store) : Prop :=
  forall sid cid day, (List.length (records_for s sid cid day) <= 1)%nat.

(** A run of [mark_attendance] calls, each on the store the one before
    left; a call that raises leaves the store as it was. *)
Fixpoint mark_all (s : store) (calls : list (string * datetime)) : store :=
  match calls with
  | [] => s
  | (sid, timestamp) :: rest =>
      match mark_attendance s sid timestamp with
      | Ok o => mark_all (stored o) rest
      | Raise _ => mark_all s rest
      end
  end.

(** *** Loading log *)

(** The error lines of a load: one for every image-named entry that does
    not decode, in directory order. *)
Definition load_errors {encoding : Type}
    (entries : list (string * image_file encoding)) : list logged :=
  flat_map (fun entry : string * image_file encoding =>
              if Path.is_image_name (fst entry) then
                match snd entry with
                | Undecodable _ => [ErrorProcessing (fst entry)]
                | Decoded _ => []
                end
              else []) entries.

(** *** The claims on the schedule and on the result of a mark *)



(** Every class time of the store is one that [strptime] with ['%H:%M']
    accepts; on any other, lines 117-118 raise [ValueError]. *)
Definition valid_class_times (s : store) : Prop :=
  Forall (fun c =>
            Forall (fun entry : weekday * class_time =>
                      valid_time (start_time (snd entry))
                      /\ valid_time (end_time (snd entry)))
                   (schedule c))
         (courses s).

(** * Properties *)

(** ** Datetime arithmetic *)

Lemma micros_per_day_value : MICROS_PER_DAY = 86400000000.
Proof. reflexivity. Qed.

Lemma micros_per_minute_value : MICROS_PER_MINUTE = 60000000.
Proof. reflexivity. Qed.

Lemma micros_per_hour_value : MICROS_PER_HOUR = 3600000000.
Proof. reflexivity. Qed.

Lemma time_micros_valid (t : time) :
  valid_time t -> 0 <= time_micros t < MICROS_PER_DAY.
Proof.
  unfold valid_time, time_micros.
  rewrite micros_per_day_value, micros_per_minute_value, micros_per_hour_value.
  lia.
Qed.

Lemma combine_valid (d : Z) (t : time) :
  valid_time t -> valid_datetime (combine d t).
Proof. intros H. unfold valid_datetime, combine; simpl. now apply time_micros_valid. Qed.

Lemma add_minutes_valid (d : datetime) (m : Z) :
  valid_datetime (add_minutes d m).
Proof.
  unfold valid_datetime, add_minutes; simpl.
  apply Z.mod_pos_bound. rewrite micros_per_day_value. lia.
Qed.

Lemma add_minutes_instant (d : datetime) (m : Z) :
  instant (add_minutes d m) = instant d + m * MICROS_PER_MINUTE.
Proof.
  unfold instant, add_minutes; simpl.
  pose proof (Z.div_mod (micros d + m * MICROS_PER_MINUTE) MICROS_PER_DAY) as E.
  rewrite micros_per_day_value in *. lia.
Qed.

Lemma leb_instant (a b : datetime) :
  valid_datetime a -> valid_datetime b ->
  leb a b = (instant a <=? instant b).
Proof.
  unfold valid_datetime, leb, instant. rewrite micros_per_day_value.
  intros Ha Hb.
  destruct (Z.ltb_spec (date a) (date b));
    destruct (Z.eqb_spec (date a) (date b));
    destruct (Z.leb_spec (micros a) (micros b));
    simpl; symmetry;
    first [ apply Z.leb_le; nia | apply Z.leb_gt; nia ].
Qed.

(** The test of line 123 is the closed interval from the start of the
    class to fifteen minutes after its end, on the day of the timestamp. *)
Lemma in_class_window_spec (timestamp : datetime) (ct : class_time) :
  valid_datetime timestamp ->
  valid_time (start_time ct) -> valid_time (end_time ct) ->
  in_class_window timestamp ct = true <->
  time_micros (start_time ct) <= micros timestamp
    <= time_micros (end_time ct) + 15 * MICROS_PER_MINUTE.
Proof.
  intros Ht Hs He. unfold in_class_window.
  rewrite leb_instant by (assumption || now apply combine_valid).
  rewrite leb_instant by (assumption || apply add_minutes_valid).
  rewrite add_minutes_instant.
  unfold instant, combine, GRACE_MINUTES; simpl.
  rewrite andb_true_iff, !Z.leb_le. lia.
Qed.

(** ** ScheduleResolver *)

Lemma str_in_spec (x : string) (l : list string) :
  str_in x l = true <-> In x l.
Proof.
  unfold str_in. rewrite existsb_exists. split.
  - intros [y [Hy E]]. apply String.eqb_eq in E. now subst.
  - intros H. exists x. split; [assumption | apply String.eqb_refl].
Qed.

(** The loop of [find_current_course] follows [course_active]. *)
Lemma scan_courses_cons enrolled day timestamp (c : course) rest :
  scan_courses enrolled day timestamp (c :: rest) =
  if course_active enrolled day timestamp c then Some (course_id c)
  else scan_courses enrolled day timestamp rest.
Proof.
  unfold course_active; simpl.
  destruct (negb (str_in (course_id c) enrolled)); [reflexivity|].
  destruct (schedule_get day (schedule c)); reflexivity.
Qed.

Lemma scan_courses_inactive enrolled day timestamp (cs : list course) :
  Forall (fun c => course_active enrolled day timestamp c = false) cs ->
  scan_courses enrolled day timestamp cs = None.
Proof.
  induction 1 as [|c rest Hc _ IH]; [reflexivity|].
  rewrite scan_courses_cons, Hc. exact IH.
Qed.

Lemma scan_courses_skip enrolled day timestamp (pre post : list course) :
  Forall (fun c => course_active enrolled day timestamp c = false) pre ->
  scan_courses enrolled day timestamp (pre ++ post) =
  scan_courses enrolled day timestamp post.
Proof.
  induction 1 as [|c rest Hc _ IH]; [reflexivity|].
  rewrite <- app_comm_cons, scan_courses_cons, Hc. exact IH.
Qed.

(** The first active course is the one returned. *)
Lemma scan_courses_first enrolled day timestamp pre (c : course) post :
  Forall (fun c' => course_active enrolled day timestamp c' = false) pre ->
  course_active enrolled day timestamp c = true ->
  scan_courses enrolled day timestamp (pre ++ c :: post) = Some (course_id c).
Proof.
  intros Hpre Hc. rewrite scan_courses_skip by assumption.
  rewrite scan_courses_cons, Hc.
  reflexivity.
Qed.

(** Whatever is returned is an enrolled course with a class on that
    weekday whose window holds the timestamp. *)
Lemma scan_courses_some enrolled day timestamp (cs : list course) cid :
  scan_courses enrolled day timestamp cs = Some cid ->
  exists c, In c cs /\ course_id c = cid
            /\ course_active enrolled day timestamp c = true.
Proof.
  induction cs as [|c rest IH]; [discriminate|].
  rewrite scan_courses_cons.
  destruct (course_active enrolled day timestamp c) eqn:E.
  - intros [= <-]. exists c. simpl; auto.
  - intros H. destruct (IH H) as [c' [Hin Hc']]. exists c'. simpl; auto.
Qed.

Lemma find_current_course_found (s : store) sid timestamp st others c cs :
  students_by_id s sid = st :: others ->
  courses s = c :: cs ->
  find_current_course s sid timestamp =
  Ok (scan_courses (enrolled_courses st) (strftime_A timestamp) timestamp
        (c :: cs)).
Proof.
  intros Hs Hc. unfold find_current_course. rewrite Hs, Hc. reflexivity.
Qed.




(** ** AttendanceLedger *)

(** Appending an attendance record does not change what the schedule
    resolver reads. *)
Lemma find_current_course_push (s : store) r sid timestamp :
  find_current_course (push_attendance s r) sid timestamp =
  find_current_course s sid timestamp.
Proof. reflexivity. Qed.

Lemma existsb_same_course_and_date (s : store) sid cid day :
  existsb (same_course_and_date cid day) (attendance_by_student s sid) = true
  <-> has_record s sid cid day.
Proof.
  unfold attendance_by_student, has_record, same_course_and_date.
  rewrite existsb_exists. split.
  - intros [r [Hin Hr]]. apply filter_In in Hin. destruct Hin as [Hin Hs].
    apply andb_true_iff in Hr. destruct Hr as [Hc Hd].
    apply String.eqb_eq in Hs, Hc. apply Z.eqb_eq in Hd.
    exists r. auto.
  - intros [r [Hin [Hs [Hc Hd]]]]. exists r. split.
    + apply filter_In. split; [assumption|]. now apply String.eqb_eq.
    + apply andb_true_iff. split; [now apply String.eqb_eq | now apply Z.eqb_eq].
Qed.

Lemma not_has_record_existsb (s : store) sid cid day :
  ~ has_record s sid cid day ->
  existsb (same_course_and_date cid day) (attendance_by_student s sid) = false.
Proof.
  intros H. apply not_true_is_false. intros E. apply H.
  now apply existsb_same_course_and_date.
Qed.

(** The three ways out of [mark_attendance]. *)
Lemma mark_attendance_no_course (s : store) sid timestamp :
  find_current_course s sid timestamp = Ok None ->
  mark_attendance s sid timestamp =
  Ok {| returned := false; stored := s;
        stdout := [NoActiveCourseFound sid timestamp] |}.
Proof. intros H. unfold mark_attendance. rewrite H. reflexivity. Qed.

Lemma mark_attendance_already (s : store) sid timestamp cid :
  find_current_course s sid timestamp = Ok (Some cid) ->
  cid <> "" ->
  has_record s sid cid (date timestamp) ->
  mark_attendance s sid timestamp =
  Ok {| returned := false; stored := s;
        stdout := [AttendanceAlreadyMarked sid cid (date timestamp)] |}.
Proof.
  intros Hf Hne Hrec. unfold mark_attendance. rewrite Hf. simpl.
  apply String.eqb_neq in Hne. rewrite Hne.
  apply existsb_same_course_and_date in Hrec. rewrite Hrec. reflexivity.
Qed.

Lemma mark_attendance_new (s : store) sid timestamp cid :
  find_current_course s sid timestamp = Ok (Some cid) ->
  cid <> "" ->
  ~ has_record s sid cid (date timestamp) ->
  mark_attendance s sid timestamp =
  Ok {| returned := true;
        stored := push_attendance s
                    {| rec_course_id := cid;
                       rec_student_id := sid;
                       rec_date := date timestamp;
                       rec_timestamp := timestamp;
                       rec_status := "present" |};
        stdout := [AttendanceMarked sid cid] |}.
Proof.
  intros Hf Hne Hrec. unfold mark_attendance. rewrite Hf. simpl.
  apply String.eqb_neq in Hne. rewrite Hne.
  rewrite (not_has_record_existsb Hrec). reflexivity.
Qed.

Lemma has_record_dec (s : store) sid cid day :
  has_record s sid cid day \/ ~ has_record s sid cid day.
Proof.
  destruct (existsb (same_course_and_date cid day)
              (attendance_by_student s sid)) eqn:E.
  - left. now apply existsb_same_course_and_date.
  - right. intros H. apply existsb_same_course_and_date in H. congruence.
Qed.

Lemma filter_none {A} (f : A -> bool) (l : list A) :
  (forall x, In x l -> f x = false) -> filter f l = [].
Proof.
  induction l as [|x rest IH]; intros H; [reflexivity|].
  simpl. rewrite (H x (or_introl eq_refl)).
  apply IH. intros y Hy. apply H. now right.
Qed.

Lemma present_records_nil (s : store) sid cid day :
  ~ has_record s sid cid day -> present_records s sid cid day = [].
Proof.
  intros H. unfold present_records.
  apply filter_none. intros r Hin.
  destruct (String.eqb_spec (rec_student_id r) sid) as [Hs|]; [|reflexivity].
  unfold same_course_and_date.
  destruct (String.eqb_spec (rec_course_id r) cid) as [Hc|]; [|reflexivity].
  destruct (Z.eqb_spec (rec_date r) day) as [Hd|]; [|reflexivity].
  exfalso. apply H. exists r. auto.
Qed.

Lemma present_records_push (s : store) sid cid timestamp :
  present_records
    (push_attendance s
       {| rec_course_id := cid; rec_student_id := sid;
          rec_date := date timestamp; rec_timestamp := timestamp;
          rec_status := "present" |})
    sid cid (date timestamp)
  = present_records s sid cid (date timestamp)
    ++ [ {| rec_course_id := cid; rec_student_id := sid;
            rec_date := date timestamp; rec_timestamp := timestamp;
            rec_status := "present" |} ].
Proof.
  unfold present_records, push_attendance, same_course_and_date; simpl.
  rewrite filter_app; simpl.
  now rewrite !String.eqb_refl, Z.eqb_refl.
Qed.

Lemma has_record_push (s : store) sid cid timestamp :
  has_record
    (push_attendance s
       {| rec_course_id := cid; rec_student_id := sid;
          rec_date := date timestamp; rec_timestamp := timestamp;
          rec_status := "present" |})
    sid cid (date timestamp).
Proof.
  eexists. split; [apply in_or_app; right; left; reflexivity|].
  simpl. auto.
Qed.

(** C1. From a store with no record of the student for the course and
    day, two marks at timestamps of the same calendar day that resolve to
    the same course return [True] with "Attendance marked" and then
    [False] with "Attendance already marked"; the second leaves the store
    as the first made it, and exactly one record with status [present]
    exists afterwards for the student, course and day. *)
Theorem mark_attendance_twice (s : store) sid cid t1 t2 :
  date t1 = date t2 ->
  find_current_course s sid t1 = Ok (Some cid) ->
  find_current_course s sid t2 = Ok (Some cid) ->
  cid <> "" ->
  ~ has_record s sid cid (date t1) ->
  exists o1 o2,
    mark_attendance s sid t1 = Ok o1
    /\ returned o1 = true /\ stdout o1 = [AttendanceMarked sid cid]
    /\ mark_attendance (stored o1) sid t2 = Ok o2
    /\ returned o2 = false
    /\ stdout o2 = [AttendanceAlreadyMarked sid cid (date t2)]
    /\ stored o2 = stored o1
    /\ List.length (present_records (stored o2) sid cid (date t1)) = 1%nat.
Proof.
  intros Hd H1 H2 Hne Hnew.
  eexists. eexists.
  split; [apply mark_attendance_new; eassumption|]. simpl.
  split; [reflexivity|]. split; [reflexivity|].
  split.
  - apply mark_attendance_already; [rewrite find_current_course_push; exact H2
                                   | exact Hne |].
    rewrite <- Hd. apply has_record_push.
  - simpl. repeat split.
    rewrite present_records_push, (present_records_nil Hnew). reflexivity.
Qed.

Lemma mark_attendance_twice_witness :
  exists o1 o2,
    mark_attendance monday_store "000004" (at_time monday_2024_01_08 9 5 0)
    = Ok o1
    /\ returned o1 = true /\ stdout o1 = [AttendanceMarked "000004" "CSE002"]
    /\ mark_attendance (stored o1) "000004" (at_time monday_2024_01_08 9 30 0)
       = Ok o2
    /\ returned o2 = false
    /\ stdout o2 =
       [AttendanceAlreadyMarked "000004" "CSE002" monday_2024_01_08]
    /\ stored o2 = stored o1
    /\ List.length (present_records (stored o2) "000004" "CSE002"
                      monday_2024_01_08) = 1%nat.
Proof.
  apply (@mark_attendance_twice monday_store "000004" "CSE002"
           (at_time monday_2024_01_08 9 5 0)
           (at_time monday_2024_01_08 9 30 0)).
  - reflexivity.
  - vm_compute. reflexivity.
  - vm_compute. reflexivity.
  - discriminate.
  - intros [r [Hin _]]. simpl in Hin. exact Hin.
Defined.

(** With a course in the store the schedule lookup raises nothing. *)
Lemma find_current_course_total (s : store) sid timestamp :
  courses s <> [] -> exists r, find_current_course s sid timestamp = Ok r.
Proof.
  intros Hc. unfold find_current_course.
  destruct (students_by_id s sid) as [|st others]; [now eexists|].
  destruct (courses s) as [|c cs]; [congruence|]. now eexists.
Qed.

(** The second mark of the Monday class and a mark after the window has
    closed both return [False]: the returned value does not tell
    "already marked" from "no active course", only what is printed does. *)
Lemma mark_attendance_false_twice :
  exists oa ob,
    mark_attendance marked_store "000004" (at_time monday_2024_01_08 9 30 0)
    = Ok oa
    /\ stdout oa =
       [AttendanceAlreadyMarked "000004" "CSE002" monday_2024_01_08]
    /\ mark_attendance marked_store "000004"
         (at_time monday_2024_01_08 11 0 0) = Ok ob
    /\ stdout ob =
       [NoActiveCourseFound "000004" (at_time monday_2024_01_08 11 0 0)]
    /\ returned oa = returned ob.
Proof.
  eexists. eexists.
  split; [vm_compute; reflexivity|]. split; [reflexivity|].
  split; [vm_compute; reflexivity|]. split; reflexivity.
Qed.

(** C4, as the code has it. On a store whose class times are valid, when
    the schedule lookup returns, [mark_attendance] returns one of two
    values, not three: [True] when no record of the student for the
    resolved course and day existed, and the record is then appended;
    [False], with the store untouched, both when such a record existed and
    when no course is active. The two no-ops differ in the printed line
    only, and neither is signalled by an exception. *)
Theorem mark_attendance_boolean (s : store) sid timestamp r :
  valid_class_times s ->
  find_current_course s sid timestamp = Ok r ->
  exists o,
    mark_attendance s sid timestamp = Ok o
    /\ (falsy r = true ->
        o = {| returned := false; stored := s;
               stdout := [NoActiveCourseFound sid timestamp] |})
    /\ (forall cid,
           r = Some cid -> cid <> "" ->
           has_record s sid cid (date timestamp) ->
           o = {| returned := false; stored := s;
                  stdout := [AttendanceAlreadyMarked sid cid
                               (date timestamp)] |})
    /\ (forall cid,
           r = Some cid -> cid <> "" ->
           ~ has_record s sid cid (date timestamp) ->
           o = {| returned := true;
                  stored := push_attendance s
                              {| rec_course_id := cid; rec_student_id := sid;
                                 rec_date := date timestamp;
                                 rec_timestamp := timestamp;
                                 rec_status := "present" |};
                  stdout := [AttendanceMarked sid cid] |})
    /\ (returned o = false -> stored o = s).
Proof.
  intros _ Hf.
  destruct r as [cid|].
  - destruct (String.eqb_spec cid "") as [->|Hne].
    + eexists. split.
      * unfold mark_attendance. rewrite Hf. reflexivity.
      * split; [reflexivity|].
        split; [intros cid [= <-] Hne; congruence|].
        split; [intros cid [= <-] Hne; congruence | reflexivity].
    + destruct (has_record_dec s sid cid (date timestamp)) as [Hrec|Hnew].
      * eexists. split; [apply mark_attendance_already; eassumption|].
        split.
        { simpl. intros E. apply String.eqb_eq in E. contradiction. }
        split; [intros cid' [= <-] _ _; reflexivity|].
        split; [intros cid' [= <-] _ H; contradiction | reflexivity].
      * eexists. split; [apply mark_attendance_new; eassumption|].
        split.
        { simpl. intros E. apply String.eqb_eq in E. contradiction. }
        split; [intros cid' [= <-] _ H; contradiction|].
        split; [intros cid' [= <-] _ _; reflexivity | discriminate].
  - eexists. split; [apply mark_attendance_no_course; eassumption|].
    split; [reflexivity|].
    split; [discriminate|]. split; [discriminate | reflexivity].
Qed.

Lemma mark_attendance_boolean_witness :
  exists o,
    mark_attendance marked_store "000004" (at_time monday_2024_01_08 9 30 0)
    = Ok o
    /\ o = {| returned := false; stored := marked_store;
              stdout := [AttendanceAlreadyMarked "000004" "CSE002"
                           monday_2024_01_08] |}.
Proof.
  destruct (@mark_attendance_boolean marked_store "000004"
              (at_time monday_2024_01_08 9 30 0) (Some "CSE002"))
    as [o [Ho [_ [Halready _]]]].
  - repeat constructor; simpl; lia.
  - vm_compute. reflexivity.
  - exists o. split; [exact Ho|].
    apply Halready; [reflexivity | discriminate |].
    eexists. split; [left; reflexivity|]. simpl. auto.
Defined.

(** A record with status [absent] for the course and day makes
    [mark_attendance] answer "already marked" although no record with
    status [present] exists. *)
Lemma absent_record_blocks_mark :
  ~ already_marked_iff_present absent_store "000004" "CSE002"
      (at_time monday_2024_01_08 9 30 0).
Proof.
  unfold already_marked_iff_present. intros [Hto _].
  assert (Hmark : exists o,
             mark_attendance absent_store "000004"
               (at_time monday_2024_01_08 9 30 0) = Ok o
             /\ stdout o =
                [AttendanceAlreadyMarked "000004" "CSE002"
                   (date (at_time monday_2024_01_08 9 30 0))]).
  { eexists. split; [vm_compute; reflexivity|reflexivity]. }
  destruct (Hto Hmark) as [r [Hin [_ [_ [_ Hst]]]]].
  simpl in Hin. destruct Hin as [<-|[]]. simpl in Hst. discriminate.
Qed.

(** C5, as the code has it. With a resolved course, [mark_attendance]
    answers "already marked" exactly when some record of the student has
    that course and the calendar date of the timestamp, whatever its
    status; it then returns [False] and leaves the store as it was, and
    otherwise returns [True]. *)
Theorem mark_attendance_already_iff_record (s : store) sid cid timestamp :
  find_current_course s sid timestamp = Ok (Some cid) ->
  cid <> "" ->
  exists o,
    mark_attendance s sid timestamp = Ok o
    /\ (stdout o = [AttendanceAlreadyMarked sid cid (date timestamp)]
        <-> has_record s sid cid (date timestamp))
    /\ (has_record s sid cid (date timestamp) ->
        returned o = false /\ stored o = s)
    /\ (~ has_record s sid cid (date timestamp) -> returned o = true).
Proof.
  intros Hf Hne.
  destruct (has_record_dec s sid cid (date timestamp)) as [Hrec|Hnew].
  - eexists. split; [apply mark_attendance_already; eassumption|]. simpl.
    split; [tauto|]. split; [auto|]. intros H. contradiction.
  - eexists. split; [apply mark_attendance_new; eassumption|]. simpl.
    split; [|split; [intros H; contradiction | reflexivity]].
    split; [discriminate | intros H; contradiction].
Qed.

Lemma mark_attendance_already_iff_record_witness :
  exists o,
    mark_attendance absent_store "000004" (at_time monday_2024_01_08 9 30 0)
    = Ok o
    /\ (stdout o =
        [AttendanceAlreadyMarked "000004" "CSE002" monday_2024_01_08]
        <-> has_record absent_store "000004" "CSE002" monday_2024_01_08)
    /\ (has_record absent_store "000004" "CSE002" monday_2024_01_08 ->
        returned o = false /\ stored o = absent_store)
    /\ (~ has_record absent_store "000004" "CSE002" monday_2024_01_08 ->
        returned o = true).
Proof.
  apply (@mark_attendance_already_iff_record absent_store "000004" "CSE002"
           (at_time monday_2024_01_08 9 30 0)).
  - vm_compute. reflexivity.
  - discriminate.
Defined.

(** With no course active, and at least one course in the store,
    [mark_attendance] returns [False] and writes nothing. *)
Lemma mark_attendance_inactive (s : store) sid timestamp st others :
  students_by_id s sid = st :: others ->
  courses s <> [] ->
  Forall (fun c => course_active (enrolled_courses st)
                     (strftime_A timestamp) timestamp c = false)
         (courses s) ->
  mark_attendance s sid timestamp =
  Ok {| returned := false; stored := s;
        stdout := [NoActiveCourseFound sid timestamp] |}.
Proof.
  intros Hs Hc Hall. apply mark_attendance_no_course.
  unfold find_current_course. rewrite Hs.
  destruct (courses s) as [|c cs]; [congruence|].
  f_equal. now apply scan_courses_inactive.
Qed.

(** C6, where the code departs from it. For a registered student and a
    store without any course, no course is active, and [mark_attendance]
    raises [AttributeError] from [all_courses.items()] instead of
    returning [False]. *)
Theorem mark_attendance_without_courses (timestamp : datetime) :
  Forall (fun c => course_active [] (strftime_A timestamp) timestamp c = false)
         (courses student_only_store)
  /\ mark_attendance student_only_store "000004" timestamp
     = Raise AttributeError.
Proof. split; [constructor | reflexivity]. Qed.

(** C10. For a [student_id] that no student of the store has,
    [find_current_course] returns [None] without raising, and
    [mark_attendance] returns [False] and leaves the store as it was. *)
Theorem mark_attendance_unknown_student (s : store) sid timestamp :
  (forall st, In st (students s) -> student_id st <> sid) ->
  find_current_course s sid timestamp = Ok None
  /\ exists o,
      mark_attendance s sid timestamp = Ok o
      /\ returned o = false
      /\ stored o = s
      /\ stdout o = [NoActiveCourseFound sid timestamp].
Proof.
  intros Hunknown.
  assert (Hq : students_by_id s sid = []).
  { apply filter_none. intros st Hin. apply String.eqb_neq. now apply Hunknown. }
  assert (Hf : find_current_course s sid timestamp = Ok None).
  { unfold find_current_course. rewrite Hq. reflexivity. }
  split; [exact Hf|].
  eexists. split; [apply mark_attendance_no_course; eassumption|].
  simpl. auto.
Qed.

Lemma mark_attendance_unknown_student_witness :
  find_current_course student_only_store "123456"
    (at_time monday_2024_01_08 9 30 0) = Ok None
  /\ exists o,
      mark_attendance student_only_store "123456"
        (at_time monday_2024_01_08 9 30 0) = Ok o
      /\ returned o = false
      /\ stored o = student_only_store
      /\ stdout o = [NoActiveCourseFound "123456"
                       (at_time monday_2024_01_08 9 30 0)].
Proof.
  apply (@mark_attendance_unknown_student student_only_store "123456"
           (at_time monday_2024_01_08 9 30 0)).
  intros st [<-|[]]. simpl. discriminate.
Defined.

(** ** Gallery: matching *)

Lemma index_true_app_false (pre rest : list bool) :
  Forall (fun b => b = false) pre ->
  index_true (pre ++ rest) = option_map (Nat.add (List.length pre)) (index_true rest).
Proof.
  induction 1 as [|b pre Hb _ IH]; simpl.
  - destruct (index_true rest); reflexivity.
  - subst b. rewrite IH. destruct (index_true rest); reflexivity.
Qed.

Lemma index_true_all_false (l : list bool) :
  Forall (fun b => b = false) l -> index_true l = None.
Proof.
  induction 1 as [|b l Hb _ IH]; simpl; [reflexivity|].
  subst b. rewrite IH. reflexivity.
Qed.

(** A list with a member that passes a test splits at the first one. *)
Lemma split_at_first {A} (f : A -> bool) (l : list A) :
  (exists x, In x l /\ f x = true) ->
  exists pre x post,
    l = pre ++ x :: post /\ Forall (fun y => f y = false) pre /\ f x = true.
Proof.
  induction l as [|y l IH]; intros [x [Hin Hx]]; [contradiction|].
  destruct (f y) eqn:Ey.
  - exists [], y, l. auto.
  - destruct Hin as [->|Hin]; [congruence|].
    destruct IH as [pre [z [post [-> [Hpre Hz]]]]]; [now exists x|].
    exists (y :: pre), z, post. auto.
Qed.

Section Matching.

Variable encoding : Type.
Variable face_distance : encoding -> encoding -> Q.

Let within (face k : encoding) : bool :=
  Qle_bool (face_distance k face) TOLERANCE.

Lemma within_true face k :
  within face k = true <-> (face_distance k face <= TOLERANCE)%Q.
Proof. apply Qle_bool_iff. Qed.

Lemma within_false face k :
  within face k = false <-> (TOLERANCE < face_distance k face)%Q.
Proof.
  unfold within. split.
  - intros H. apply Qnot_le_lt. intros Hle.
    apply Qle_bool_iff in Hle. congruence.
  - intros H. apply not_true_is_false. intros Hle.
    apply Qle_bool_iff in Hle. now apply (Qlt_not_le _ _ H).
Qed.

(** The first known encoding within the tolerance decides the match. *)
Lemma match_face_first (a : app encoding) face pre e post label :
  known_face_encodings a = pre ++ e :: post ->
  Forall (fun k => (TOLERANCE < face_distance k face)%Q) pre ->
  (face_distance e face <= TOLERANCE)%Q ->
  nth_error (known_face_names a) (List.length pre) = Some label ->
  match_face face_distance a face = Ok (Some label).
Proof.
  intros Hk Hpre He Hname. unfold match_face, compare_faces.
  rewrite Hk, map_app. simpl.
  rewrite index_true_app_false.
  - apply Qle_bool_iff in He. rewrite He. simpl.
    rewrite length_map, Nat.add_0_r, Hname. reflexivity.
  - apply Forall_map. eapply Forall_impl; [|exact Hpre].
    intros k Hkf. now apply within_false.
Qed.

Lemma match_face_none (a : app encoding) face :
  Forall (fun k => (TOLERANCE < face_distance k face)%Q)
         (known_face_encodings a) ->
  match_face face_distance a face = Ok None.
Proof.
  intros H. unfold match_face, compare_faces.
  rewrite index_true_all_false; [reflexivity|].
  apply Forall_map. eapply Forall_impl; [|exact H].
  intros k Hkf. now apply within_false.
Qed.

(** C3, as the code has it. With [d] the distance from the face to
    the closest known encoding: when [d <= 0.5] the face is matched,
    to the label of the first identity in load order that lies within
    the tolerance; when [d > 0.5] it is unknown. *)
Theorem match_face_threshold (a : app encoding) face d :
  List.length (known_face_names a) = List.length (known_face_encodings a) ->
  (exists e, In e (known_face_encodings a)
             /\ (face_distance e face == d)%Q) ->
  (forall e, In e (known_face_encodings a) -> (d <= face_distance e face)%Q) ->
  ((d <= TOLERANCE)%Q ->
   exists pre e post label,
     known_face_encodings a = pre ++ e :: post
     /\ Forall (fun k => (TOLERANCE < face_distance k face)%Q) pre
     /\ (face_distance e face <= TOLERANCE)%Q
     /\ nth_error (known_face_names a) (List.length pre) = Some label
     /\ match_face face_distance a face = Ok (Some label))
  /\ ((TOLERANCE < d)%Q -> match_face face_distance a face = Ok None).
Proof.
  intros Hlen [e0 [Hin0 Hd0]] Hmin. split.
  - intros Hd.
    destruct (@split_at_first _ (within face) (known_face_encodings a))
      as [pre [e [post [Hk [Hpre He]]]]].
    { exists e0. split; [assumption|]. apply within_true.
      rewrite Hd0. exact Hd. }
    assert (Hlt : (List.length pre < List.length (known_face_names a))%nat).
    { rewrite Hlen, Hk, length_app. simpl. lia. }
    destruct (nth_error (known_face_names a) (List.length pre)) as [label|]
      eqn:Hname.
    2:{ apply nth_error_None in Hname. lia. }
    assert (Hpre' : Forall (fun k => (TOLERANCE < face_distance k face)%Q) pre).
    { eapply Forall_impl; [|exact Hpre]. intros k Hkf. now apply within_false. }
    apply within_true in He.
    exists pre, e, post, label. repeat split; try assumption.
    eapply match_face_first; eassumption.
  - intros Hd. apply match_face_none.
    apply Forall_forall. intros k Hk.
    eapply Qlt_le_trans; [exact Hd | now apply Hmin].
Qed.

End Matching.

Example two_faces_gallery sc db :
  known_face_names (two_faces_app sc db) = ["000001"; "000002"]
  /\ known_face_encodings (two_faces_app sc db) = [4 # 10; 3 # 10]%Q.
Proof. split; reflexivity. Qed.

(** With "000001" at 0.4 and "000002" at 0.3 from the face, the closest
    identity is "000002", below the tolerance, and the face is matched to
    "000001". *)
Lemma first_match_is_not_closest :
  ~ match_is_closest_below point_distance
      (two_faces_app None monday_store) (0 # 1)%Q.
Proof.
  intros H.
  destruct (H 1%nat (3 # 10)%Q "000002") as [[_ Hback] _].
  - split.
    + exists (3 # 10)%Q. split; reflexivity.
    + intros e [<-|[<-|[]]]; vm_compute; discriminate.
  - reflexivity.
  - assert (Hd : (3 # 10 < TOLERANCE)%Q) by reflexivity.
    specialize (Hback Hd). vm_compute in Hback. discriminate.
Qed.

(** At the tolerance itself the comparison of [compare_faces] holds. *)
Example match_face_at_tolerance :
  match_face point_distance
    {| known_face_encodings := [5 # 10]%Q; known_face_names := ["000001"];
       serial_connection := None; firebase_db := monday_store;
       console := []; logger := [] |} (0 # 1)%Q
  = Ok (Some "000001").
Proof. reflexivity. Qed.

Lemma match_face_threshold_witness :
  ((3 # 10 <= TOLERANCE)%Q ->
   exists pre e post label,
     known_face_encodings (two_faces_app None monday_store)
     = pre ++ e :: post
     /\ Forall (fun k => (TOLERANCE < point_distance k (0 # 1))%Q) pre
     /\ (point_distance e (0 # 1) <= TOLERANCE)%Q
     /\ nth_error (known_face_names (two_faces_app None monday_store))
          (List.length pre) = Some label
     /\ match_face point_distance (two_faces_app None monday_store) (0 # 1)%Q
        = Ok (Some label))
  /\ ((TOLERANCE < 3 # 10)%Q ->
      match_face point_distance (two_faces_app None monday_store) (0 # 1)%Q
      = Ok None).
Proof.
  apply (@match_face_threshold Q point_distance
           (two_faces_app None monday_store) (0 # 1)%Q (3 # 10)%Q).
  - reflexivity.
  - exists (3 # 10)%Q. split; [simpl; auto | reflexivity].
  - intros e [<-|[<-|[]]]; vm_compute; discriminate.
Defined.

(** C7. When two or more known identities lie within the tolerance of a
    face, the face is matched to the first of them in load order, whatever
    the distances of the later ones; in the example gallery that is
    "000001" at 0.4 although "000002" at 0.3 is nearer. *)
Theorem match_face_first_in_load_order :
  (forall (encoding : Type) (face_distance : encoding -> encoding -> Q)
          (a : app encoding) face pre e1 mid e2 post label,
      known_face_encodings a = pre ++ e1 :: mid ++ e2 :: post ->
      Forall (fun k => (TOLERANCE < face_distance k face)%Q) pre ->
      (face_distance e1 face <= TOLERANCE)%Q ->
      (face_distance e2 face <= TOLERANCE)%Q ->
      nth_error (known_face_names a) (List.length pre) = Some label ->
      match_face face_distance a face = Ok (Some label))
  /\ (let a := two_faces_app None monday_store in
      (point_distance (4 # 10) (0 # 1) <= TOLERANCE)%Q
      /\ (point_distance (3 # 10) (0 # 1) <= TOLERANCE)%Q
      /\ (point_distance (3 # 10) (0 # 1) < point_distance (4 # 10) (0 # 1))%Q
      /\ known_face_encodings a = [4 # 10; 3 # 10]%Q
      /\ known_face_names a = ["000001"; "000002"]
      /\ match_face point_distance a (0 # 1)%Q = Ok (Some "000001")).
Proof.
  split.
  - intros encoding face_distance a face pre e1 mid e2 post label
           Hk Hpre H1 _ Hname.
    eapply match_face_first; eassumption.
  - repeat split; vm_compute; congruence.
Qed.

Lemma match_face_first_in_load_order_witness :
  match_face point_distance (two_faces_app None monday_store) (0 # 1)%Q
  = Ok (Some "000001").
Proof.
  apply (proj1 match_face_first_in_load_order Q point_distance
           (two_faces_app None monday_store) (0 # 1)%Q
           [] (4 # 10)%Q [] (3 # 10)%Q [] "000001").
  - reflexivity.
  - constructor.
  - vm_compute. discriminate.
  - vm_compute. discriminate.
  - reflexivity.
Defined.

(** ** Gallery: loading *)

Section Loading.

Variable encoding : Type.

Lemma load_one_gallery (a : app encoding) n entry :
  let a' := fst (load_one a n entry) in
  known_face_names a'
  = known_face_names a ++ map fst (gallery_of [entry])
  /\ known_face_encodings a'
     = known_face_encodings a ++ map snd (gallery_of [entry])
  /\ serial_connection a' = serial_connection a
  /\ firebase_db a' = firebase_db a.
Proof.
  destruct entry as [filename file].
  unfold load_one, gallery_of, identity_of; simpl.
  destruct (Path.is_image_name filename); simpl.
  - destruct file as [|[|e faces]]; simpl; rewrite ?app_nil_r; auto.
  - rewrite !app_nil_r. auto.
Qed.

Lemma gallery_of_cons (entry : string * image_file encoding) rest :
  gallery_of (entry :: rest) = gallery_of [entry] ++ gallery_of rest.
Proof. unfold gallery_of; simpl. now rewrite app_nil_r. Qed.

Lemma gallery_of_app (l1 l2 : list (string * image_file encoding)) :
  gallery_of (l1 ++ l2) = gallery_of l1 ++ gallery_of l2.
Proof. apply flat_map_app. Qed.

Lemma load_loop_gallery entries : forall (a : app encoding) n,
  let a' := fst (load_loop a n entries) in
  known_face_names a'
  = known_face_names a ++ map fst (gallery_of entries)
  /\ known_face_encodings a'
     = known_face_encodings a ++ map snd (gallery_of entries)
  /\ serial_connection a' = serial_connection a
  /\ firebase_db a' = firebase_db a.
Proof.
  induction entries as [|entry rest IH]; intros a n.
  - simpl. rewrite !app_nil_r. auto.
  - rewrite gallery_of_cons. cbn [load_loop].
    destruct (load_one_gallery a n entry) as [Hn [He [Hs Hd]]].
    destruct (load_one a n entry) as [a1 n1]; cbn [fst] in *.
    destruct (IH a1 n1) as [Hn' [He' [Hs' Hd']]].
    rewrite !map_app, !app_assoc, <- Hn, <- He.
    repeat split; congruence.
Qed.

Lemma load_known_faces_gallery (a : app encoding) entries :
  let a' := load_known_faces a (Some entries) in
  known_face_names a'
  = known_face_names a ++ map fst (gallery_of entries)
  /\ known_face_encodings a'
     = known_face_encodings a ++ map snd (gallery_of entries).
Proof.
  unfold load_known_faces.
  destruct (load_loop_gallery entries a O) as [Hn [He _]].
  destruct (load_loop a 0 entries) as [a1 n1]; simpl in *. auto.
Qed.

(** C8. Loading a directory yields, after what was known before and in
    directory order, the identity of every entry that has one; an entry
    that does not decode or shows no face contributes nothing and the
    load is the same as without it, and every other image still yields
    its identity. *)
Theorem load_known_faces_skips_failures (a : app encoding) entries :
  let a' := load_known_faces a (Some entries) in
  (known_face_names a'
   = known_face_names a ++ map fst (gallery_of entries)
   /\ known_face_encodings a'
      = known_face_encodings a ++ map snd (gallery_of entries))
  /\ (forall l1 bad l2,
         entries = l1 ++ bad :: l2 ->
         snd bad = Undecodable encoding \/ snd bad = Decoded [] ->
         let b := load_known_faces a (Some (l1 ++ l2)) in
         known_face_names a' = known_face_names b
         /\ known_face_encodings a' = known_face_encodings b)
  /\ (forall entry label e,
         In entry entries ->
         identity_of entry = Some (label, e) ->
         exists i,
           nth_error (known_face_names a')
             (List.length (known_face_names a) + i) = Some label
           /\ nth_error (known_face_encodings a')
                (List.length (known_face_encodings a) + i) = Some e).
Proof.
  intros a'.
  destruct (load_known_faces_gallery a entries) as [Hn He].
  fold a' in Hn, He.
  split; [auto|]. split.
  - intros l1 bad l2 -> Hbad b.
    destruct (load_known_faces_gallery a (l1 ++ l2)) as [Hn' He'].
    fold b in Hn', He'.
    assert (Hskip : gallery_of (l1 ++ bad :: l2) = gallery_of (l1 ++ l2)).
    { rewrite !gallery_of_app, (gallery_of_cons bad l2).
      assert (Hnone : gallery_of [bad] = []).
      { unfold gallery_of, identity_of; simpl.
        destruct (Path.is_image_name (fst bad)); [|reflexivity].
        destruct Hbad as [-> | ->]; reflexivity. }
      rewrite Hnone. reflexivity. }
    rewrite Hn, He, Hn', He', Hskip. auto.
  - intros entry label e Hin Hid.
    assert (Hg : In (label, e) (gallery_of entries)).
    { unfold gallery_of. apply in_flat_map. exists entry.
      split; [assumption|]. rewrite Hid. now left. }
    apply In_nth_error in Hg. destruct Hg as [i Hi].
    exists i. rewrite Hn, He.
    rewrite !nth_error_app2 by lia.
    replace (List.length (known_face_names a) + i
             - List.length (known_face_names a))%nat with i by lia.
    replace (List.length (known_face_encodings a) + i
             - List.length (known_face_encodings a))%nat with i by lia.
    split.
    + now apply (map_nth_error fst) in Hi.
    + now apply (map_nth_error snd) in Hi.
Qed.

(** Names and encodings are appended together. *)
Lemma load_known_faces_lengths (a : app encoding) listing :
  List.length (known_face_names a) = List.length (known_face_encodings a) ->
  List.length (known_face_names (load_known_faces a listing))
  = List.length (known_face_encodings (load_known_faces a listing)).
Proof.
  intros H. destruct listing as [entries|]; [|exact H].
  destruct (load_known_faces_gallery a entries) as [-> ->].
  rewrite !length_app, !length_map. lia.
Qed.

End Loading.

Lemma load_known_faces_skips_failures_witness :
  let a := fresh_app None monday_store in
  let a' := load_known_faces a (Some example_listing) in
  let b :=
    load_known_faces a
      (Some ([ ("notes.txt", Decoded [1 # 1]%Q);
               ("000001.JPG", Decoded [4 # 10; 9 # 10]%Q) ]
             ++ [ ("empty.jpeg", Decoded []);
                  ("000002.png", Decoded [3 # 10]%Q) ])) in
  (known_face_names a' = known_face_names b
   /\ known_face_encodings a' = known_face_encodings b)
  /\ exists i,
      nth_error (known_face_names a')
        (List.length (known_face_names a) + i) = Some "000002"
      /\ nth_error (known_face_encodings a')
           (List.length (known_face_encodings a) + i) = Some (3 # 10)%Q.
Proof.
  intros a a' b.
  destruct (@load_known_faces_skips_failures Q a example_listing)
    as [_ [Hskip Hkeep]].
  split.
  - apply (Hskip [ ("notes.txt", Decoded [1 # 1]%Q);
                   ("000001.JPG", Decoded [4 # 10; 9 # 10]%Q) ]
                 ("broken.png", Undecodable Q)
                 [ ("empty.jpeg", Decoded []);
                   ("000002.png", Decoded [3 # 10]%Q) ]).
    + reflexivity.
    + left. reflexivity.
  - apply (Hkeep ("000002.png", Decoded [3 # 10]%Q)).
    + simpl. auto 10.
    + reflexivity.
Defined.

(** ** RecognitionPipeline *)

Section Pipeline.

Variable encoding : Type.
Variable face_distance : encoding -> encoding -> Q.

(** The actuator never touches the store, the console or the gallery. *)
Lemma trigger_led_blink_frame (a : app encoding) :
  let a' := snd (trigger_led_blink a) in
  firebase_db a' = firebase_db a
  /\ console a' = console a
  /\ known_face_names a' = known_face_names a
  /\ known_face_encodings a' = known_face_encodings a.
Proof.
  unfold trigger_led_blink.
  destruct (serial_connection a) as [sc|]; simpl; [|auto].
  destruct (is_open sc); simpl; [|auto].
  destruct (write_raises sc); simpl; auto.
Qed.

(** What [attend] does after a mark that returned. *)
Lemma attend_ok (a : app encoding) sid timestamp o :
  mark_attendance (firebase_db a) sid timestamp = Ok o ->
  attend a sid timestamp =
  if returned o then
    let before := log (after_mark a o) (InfoAttendanceMarked sid) in
    log (snd (trigger_led_blink before))
        (if fst (trigger_led_blink before) then InfoLEDBlinkConfirmed
         else ErrorFailedToTriggerLED)
  else after_mark a o.
Proof.
  intros H. unfold attend. rewrite H.
  destruct (returned o); [|reflexivity]. simpl.
  destruct (trigger_led_blink (log (after_mark a o) (InfoAttendanceMarked sid)))
    as [[|] a3]; reflexivity.
Qed.

(** C9. For a matched face whose mark returns, the store afterwards is
    the one the mark wrote, whatever the actuator does. When the mark
    returned [True] the actuator is signalled after it: on an open serial
    line whose write goes through, the line "blink" is written, once, and
    the log has the mark, the sending and the confirmation in that order;
    without a serial line, or with one that is closed or whose write
    raises, nothing is written, the failure is logged and the record
    stays. When the mark returned [False] the actuator is not signalled:
    the serial line and the log are as they were. *)
Theorem recognize_face_signals_after_mark (a : app encoding) f sid o :
  match_face face_distance a (face_encoding f) = Ok (Some sid) ->
  mark_attendance (firebase_db a) sid (now f) = Ok o ->
  exists a',
    recognize_face face_distance a f = Ok (a', (location f, sid, Green))
    /\ firebase_db a' = stored o
    /\ (returned o = true ->
        (forall sc,
            serial_connection a = Some sc ->
            is_open sc = true -> write_raises sc = false ->
            serial_connection a'
            = Some {| is_open := true; write_raises := false;
                      written := written sc
                                 ++ [("blink" ++ String "010" "")%string] |}
            /\ logger a'
               = logger a ++ [ InfoAttendanceMarked sid;
                               InfoSendingBlink;
                               InfoLEDBlinkConfirmed ])
        /\ (serial_connection a = None
            \/ (exists sc, serial_connection a = Some sc
                            /\ (is_open sc = false \/ write_raises sc = true)) ->
            serial_connection a' = serial_connection a
            /\ exists lines,
                logger a'
                = logger a ++ InfoAttendanceMarked sid
                              :: lines ++ [ErrorFailedToTriggerLED]))
    /\ (returned o = false ->
        serial_connection a' = serial_connection a
        /\ logger a' = logger a).
Proof.
  intros Hm Ho.
  exists (attend a sid (now f)). split.
  { unfold recognize_face. rewrite Hm. reflexivity. }
  unfold attend. rewrite Ho.
  destruct (returned o); [|simpl; split; [reflexivity|];
                           split; [discriminate | auto]].
  unfold trigger_led_blink. simpl.
  destruct (serial_connection a) as [sc|] eqn:Es.
  - destruct (is_open sc) eqn:Eo; [destruct (write_raises sc) eqn:Ew|]; simpl.
    + split; [reflexivity|]. split; [|discriminate]. intros _. split.
      * intros sc' [= <-] _ Hw. congruence.
      * intros _. split; [exact Es|].
        exists [InfoSendingBlink; ErrorTriggeringLED].
        rewrite <- !app_assoc. reflexivity.
    + split; [reflexivity|]. split; [|discriminate]. intros _. split.
      * intros sc' [= <-] _ _. split; [reflexivity|].
        rewrite <- !app_assoc. reflexivity.
      * intros [H | [sc' [[= <-] [H|H]]]]; congruence.
    + split; [reflexivity|]. split; [|discriminate]. intros _. split.
      * intros sc' [= <-] Ho' _. congruence.
      * intros _. split; [exact Es|].
        exists [ErrorSerialNotAvailable].
        rewrite <- !app_assoc. reflexivity.
  - simpl. split; [reflexivity|]. split; [|discriminate]. intros _. split.
    + intros sc H. discriminate.
    + intros _. split; [exact Es|].
      exists [ErrorSerialNotAvailable].
      rewrite <- !app_assoc. reflexivity.
Qed.

End Pipeline.

(** A student of the gallery seen at 09:30 on Monday with the serial
    line open: the record is written and then "blink" is. *)
Lemma recognize_face_signals_after_mark_witness :
  let a := two_faces_app (Some open_serial) gallery_store in
  let f := {| location := (10, 90, 90, 10); face_encoding := (0 # 1)%Q;
              now := at_time monday_2024_01_08 9 30 0 |} in
  exists o a',
    mark_attendance (firebase_db a) "000001" (now f) = Ok o
    /\ returned o = true
    /\ recognize_face point_distance a f
       = Ok (a', (location f, "000001", Green))
    /\ firebase_db a' = stored o
    /\ List.length (attendance (firebase_db a')) = 1%nat
    /\ serial_connection a'
       = Some {| is_open := true; write_raises := false;
                 written := [("blink" ++ String "010" "")%string] |}.
Proof.
  intros a f.
  pose (o := {| returned := true;
                stored := push_attendance gallery_store
                            {| rec_course_id := "CSE002";
                               rec_student_id := "000001";
                               rec_date := monday_2024_01_08;
                               rec_timestamp := now f;
                               rec_status := "present" |};
                stdout := [AttendanceMarked "000001" "CSE002"] |}).
  destruct (@recognize_face_signals_after_mark Q point_distance a f "000001" o)
    as [a' [Hr [Hdb [Hsig _]]]].
  - reflexivity.
  - vm_compute. reflexivity.
  - destruct (proj1 (Hsig eq_refl) open_serial eq_refl eq_refl eq_refl)
      as [Hserial _].
    exists o, a'. split; [vm_compute; reflexivity|].
    split; [reflexivity|]. split; [exact Hr|]. split; [exact Hdb|].
    split; [rewrite Hdb; reflexivity | exact Hserial].
Defined.

(** The same face while the write on the serial line raises: the record
    is written all the same and nothing reaches the line. *)
Example failed_signal_keeps_record :
  let a := two_faces_app (Some failing_serial) gallery_store in
  let f := {| location := (10, 90, 90, 10); face_encoding := (0 # 1)%Q;
              now := at_time monday_2024_01_08 9 30 0 |} in
  exists a' ann,
    recognize_face point_distance a f = Ok (a', ann)
    /\ List.length (attendance (firebase_db a')) = 1%nat
    /\ serial_connection a' = Some failing_serial.
Proof. eexists. eexists. split; [vm_compute; reflexivity|]. split; reflexivity. Qed.

(** ** Administration *)

Unset Implicit Arguments.

Lemma update_first_none {A} (p : A -> bool) (f : A -> A) (l : list A) :
  Forall (fun x => p x = false) l -> update_first p f l = l.
Proof.
  induction 1 as [|x rest Hx _ IH]; simpl; [reflexivity|].
  rewrite Hx, IH. reflexivity.
Qed.

Lemma update_first_split {A} (p : A -> bool) (f : A -> A) pre x post :
  Forall (fun y => p y = false) pre -> p x = true ->
  update_first p f (pre ++ x :: post) = pre ++ f x :: post.
Proof.
  induction 1 as [|y pre Hy _ IH]; intros Hx; simpl.
  - rewrite Hx. reflexivity.
  - rewrite Hy, IH by assumption. reflexivity.
Qed.

Lemma filter_split {A} (p : A -> bool) pre (x : A) post :
  Forall (fun y => p y = false) pre -> p x = true ->
  filter p (pre ++ x :: post) = x :: filter p post.
Proof.
  intros Hpre Hx. rewrite filter_app. simpl. rewrite Hx.
  rewrite filter_none; [reflexivity|].
  now apply Forall_forall.
Qed.

(** A query that finds something splits the rows at its first result. *)
Lemma filter_first {A} (p : A -> bool) (l : list A) x rest :
  filter p l = x :: rest ->
  exists pre post,
    l = pre ++ x :: post /\ Forall (fun y => p y = false) pre /\ p x = true
    /\ rest = filter p post.
Proof.
  induction l as [|y l IH]; [discriminate|]. simpl.
  destruct (p y) eqn:Ey.
  - intros [= -> <-]. exists [], l. auto.
  - intros H. destruct (IH H) as [pre [post [-> [Hpre [Hx Hr]]]]].
    exists (y :: pre), post. auto.
Qed.

Lemma filter_nil_forall {A} (p : A -> bool) (l : list A) :
  filter p l = [] -> Forall (fun y => p y = false) l.
Proof.
  induction l as [|y l IH]; [constructor|]. simpl.
  destruct (p y) eqn:Ey; [discriminate|]. auto.
Qed.

Lemma is_student_set_enrolled_courses sid l r :
  is_student sid (set_enrolled_courses l r) = is_student sid r.
Proof. reflexivity. Qed.

Lemma is_course_set_enrolled_students cid l r :
  is_course cid (set_enrolled_students l r) = is_course cid r.
Proof. reflexivity. Qed.

(** The outcome of [enroll_student_to_course] when both queries find a
    row, in terms of the first rows found. *)
Lemma enroll_found (d : database) sid cid spre st spost cpre co cpost :
  student_rows d = spre ++ st :: spost ->
  Forall (fun r => is_student sid r = false) spre ->
  is_student sid st = true ->
  course_rows d = cpre ++ co :: cpost ->
  Forall (fun r => is_course cid r = false) cpre ->
  is_course cid co = true ->
  enroll_student_to_course d sid cid =
  ({| student_rows :=
        if str_in cid (enrolled_courses (row_student st)) then student_rows d
        else spre ++ set_enrolled_courses
                       (enrolled_courses (row_student st) ++ [cid]) st
                  :: spost;
      course_rows :=
        if str_in sid (enrolled_students co) then course_rows d
        else cpre ++ set_enrolled_students (enrolled_students co ++ [sid]) co
                  :: cpost;
      attendance_rows := attendance_rows d |}, []).
Proof.
  intros Hs Hspre Hst Hc Hcpre Hco. unfold enroll_student_to_course.
  rewrite Hs, Hc, !filter_split by assumption.
  destruct (str_in cid (enrolled_courses (row_student st)));
    destruct (str_in sid (enrolled_students co)); simpl;
    rewrite ?Hs, ?Hc, ?update_first_split by assumption;
    try reflexivity.
  destruct d; simpl in *; subst; reflexivity.
Qed.

(** X1. Enrolling with an unknown student or an unknown course changes
    nothing and prints that one of them was not found. *)
Theorem enroll_student_to_course_not_found (d : database) sid cid :
  (forall r, In r (student_rows d) -> student_id (row_student r) <> sid)
  \/ (forall r, In r (course_rows d) -> course_id (row_course r) <> cid) ->
  enroll_student_to_course d sid cid = (d, [StudentOrCourseNotFound]).
Proof.
  intros [H|H]; unfold enroll_student_to_course.
  - rewrite (@filter_none _ (is_student sid) (student_rows d)); [reflexivity|].
    intros r Hr. apply String.eqb_neq. now apply H.
  - rewrite (@filter_none _ (is_course cid) (course_rows d)).
    + destruct (filter (is_student sid) (student_rows d)); reflexivity.
    + intros r Hr. apply String.eqb_neq. now apply H.
Qed.

(** X2. Enrolling a known student in a known course prints nothing and
    links both ways: the row a student query returns first lists the
    course, the row a course query returns first lists the student.
    Attendance, the students' ids and the courses with their schedules
    stay as they were. *)
Theorem enroll_student_to_course_links (d : database) sid cid :
  (exists r, In r (student_rows d) /\ student_id (row_student r) = sid) ->
  (exists r, In r (course_rows d) /\ course_id (row_course r) = cid) ->
  let d' := fst (enroll_student_to_course d sid cid) in
  snd (enroll_student_to_course d sid cid) = []
  /\ (exists st rest,
         filter (is_student sid) (student_rows d') = st :: rest
         /\ In cid (enrolled_courses (row_student st)))
  /\ (exists co rest,
         filter (is_course cid) (course_rows d') = co :: rest
         /\ In sid (enrolled_students co))
  /\ attendance_rows d' = attendance_rows d
  /\ map (fun r => student_id (row_student r)) (student_rows d')
     = map (fun r => student_id (row_student r)) (student_rows d)
  /\ map row_course (course_rows d') = map row_course (course_rows d).
Proof.
  intros Hs Hc d'.
  destruct (@split_at_first _ (is_student sid) (student_rows d))
    as [spre [st [spost [Es [Hspre Hst]]]]].
  { destruct Hs as [r [Hin Hr]]. exists r. split; [assumption|].
    now apply String.eqb_eq. }
  destruct (@split_at_first _ (is_course cid) (course_rows d))
    as [cpre [co [cpost [Ec [Hcpre Hco]]]]].
  { destruct Hc as [r [Hin Hr]]. exists r. split; [assumption|].
    now apply String.eqb_eq. }
  subst d'.
  rewrite (enroll_found d sid cid _ _ _ _ _ _ Es Hspre Hst Ec Hcpre Hco). simpl.
  split; [reflexivity|].
  destruct (str_in cid (enrolled_courses (row_student st))) eqn:Ecid;
    destruct (str_in sid (enrolled_students co)) eqn:Esid;
    rewrite ?Es, ?Ec, !filter_split by assumption;
    repeat split;
    try (eexists; eexists; split; [reflexivity|]; simpl;
         first [ now apply str_in_spec
               | apply in_or_app; right; now left ]);
    rewrite ?map_app; reflexivity.
Qed.

Lemma enroll_student_to_course_links_witness :
  let d := {| student_rows :=
                [ {| row_student := {| student_id := "000004";
                                       enrolled_courses := [] |};
                     student_name := "Obaid Sajjad";
                     student_email := "hilmand.atk@gmail.com" |} ];
              course_rows :=
                [ {| row_course :=
                       {| course_id := "CSE002";
                          schedule := [ (Sunday,
                                         {| start_time := mk_time 12 0;
                                            end_time := mk_time 13 0 |}) ] |};
                     course_name := "Technical Writing";
                     instructor := "Dr. Ameer Sultan";
                     enrolled_students := [] |} ];
              attendance_rows := [] |} in
  let d' := fst (enroll_student_to_course d "000004" "CSE002") in
  snd (enroll_student_to_course d "000004" "CSE002") = []
  /\ (exists st rest,
         filter (is_student "000004") (student_rows d') = st :: rest
         /\ In "CSE002" (enrolled_courses (row_student st)))
  /\ (exists co rest,
         filter (is_course "CSE002") (course_rows d') = co :: rest
         /\ In "000004" (enrolled_students co))
  /\ attendance_rows d' = attendance_rows d
  /\ map (fun r => student_id (row_student r)) (student_rows d')
     = map (fun r => student_id (row_student r)) (student_rows d)
  /\ map row_course (course_rows d') = map row_course (course_rows d).
Proof.
  intros d.
  apply (@enroll_student_to_course_links d "000004" "CSE002").
  - eexists. split; [left; reflexivity | reflexivity].
  - eexists. split; [left; reflexivity | reflexivity].
Defined.

(** X3. Enrolling a second time changes nothing more. *)
Theorem enroll_student_to_course_idempotent (d : database) sid cid :
  fst (enroll_student_to_course (fst (enroll_student_to_course d sid cid))
         sid cid)
  = fst (enroll_student_to_course d sid cid).
Proof.
  destruct (filter (is_student sid) (student_rows d)) as [|st srest] eqn:Fs.
  { unfold enroll_student_to_course at 2. rewrite Fs. simpl.
    unfold enroll_student_to_course. rewrite Fs. reflexivity. }
  destruct (filter (is_course cid) (course_rows d)) as [|co crest] eqn:Fc.
  { unfold enroll_student_to_course at 2. rewrite Fs, Fc. simpl.
    unfold enroll_student_to_course. rewrite Fs, Fc. reflexivity. }
  destruct (filter_first _ _ _ _ Fs) as [spre [spost [Es [Hspre [Hst _]]]]].
  destruct (filter_first _ _ _ _ Fc) as [cpre [cpost [Ec [Hcpre [Hco _]]]]].
  rewrite (enroll_found d sid cid _ _ _ _ _ _ Es Hspre Hst Ec Hcpre Hco). simpl.
  set (l := enrolled_courses (row_student st)).
  set (m := enrolled_students co).
  set (st' := if str_in cid l then st
              else set_enrolled_courses (l ++ [cid]) st).
  set (co' := if str_in sid m then co
              else set_enrolled_students (m ++ [sid]) co).
  assert (Hl : str_in cid (enrolled_courses (row_student st')) = true).
  { subst st'. destruct (str_in cid l) eqn:E; [exact E|]. simpl.
    apply str_in_spec. apply in_or_app. right. now left. }
  assert (Hm : str_in sid (enrolled_students co') = true).
  { subst co'. destruct (str_in sid m) eqn:E; [exact E|]. simpl.
    apply str_in_spec. apply in_or_app. right. now left. }
  assert (Hst' : is_student sid st' = true).
  { subst st'. destruct (str_in cid l); assumption. }
  assert (Hco' : is_course cid co' = true).
  { subst co'. destruct (str_in sid m); assumption. }
  assert (Es' : (if str_in cid l then student_rows d
                 else spre ++ set_enrolled_courses (l ++ [cid]) st :: spost)
                = spre ++ st' :: spost).
  { subst st'. destruct (str_in cid l); [exact Es | reflexivity]. }
  assert (Ec' : (if str_in sid m then course_rows d
                 else cpre ++ set_enrolled_students (m ++ [sid]) co :: cpost)
                = cpre ++ co' :: cpost).
  { subst co'. destruct (str_in sid m); [exact Ec | reflexivity]. }
  rewrite Es', Ec'.
  erewrite enroll_found; [|simpl; reflexivity | exact Hspre | exact Hst'
                            |simpl; reflexivity | exact Hcpre | exact Hco'].
  simpl. rewrite Hl, Hm. reflexivity.
Qed.

(** The resolver sees of the database what [view] keeps. *)
Lemma students_by_id_view (d : database) sid :
  students_by_id (view d) sid
  = map row_student (filter (is_student sid) (student_rows d)).
Proof.
  unfold students_by_id, view; simpl.
  induction (student_rows d) as [|r rest IH]; [reflexivity|].
  simpl. unfold is_student at 1.
  destruct (String.eqb (student_id (row_student r)) sid); simpl;
    now rewrite IH.
Qed.

(** With the student found and a course in the store, the resolver is
    the scan of the courses. *)
Lemma find_current_course_scan (s : store) sid timestamp st others :
  students_by_id s sid = st :: others ->
  courses s <> [] ->
  find_current_course s sid timestamp =
  Ok (scan_courses (enrolled_courses st) (strftime_A timestamp) timestamp
        (courses s)).
Proof.
  intros Hs Hc. unfold find_current_course. rewrite Hs.
  destruct (courses s); [congruence | reflexivity].
Qed.

(** X4. From creation to attendance: a new student, a new course and the
    enrolment of the one in the other make [find_current_course] resolve
    the course inside its window on a scheduled weekday, and
    [mark_attendance] then returns [True] and appends the record with
    status [present]. *)
Theorem create_enroll_mark (d : database) sid name email cid cname
    instructor_name sched timestamp ct :
  (forall r, In r (student_rows d) -> student_id (row_student r) <> sid) ->
  (forall r, In r (course_rows d) -> course_id (row_course r) <> cid) ->
  cid <> "" ->
  valid_datetime timestamp ->
  schedule_get (strftime_A timestamp) sched = Some ct ->
  valid_time (start_time ct) -> valid_time (end_time ct) ->
  time_micros (start_time ct) <= micros timestamp
    <= time_micros (end_time ct) + 15 * MICROS_PER_MINUTE ->
  ~ has_record (view d) sid cid (date timestamp) ->
  let d1 := snd (create_student d sid name email) in
  let d2 := snd (create_course d1 cid cname instructor_name sched) in
  let d3 := fst (enroll_student_to_course d2 sid cid) in
  find_current_course (view d3) sid timestamp = Ok (Some cid)
  /\ mark_attendance (view d3) sid timestamp =
     Ok {| returned := true;
           stored := push_attendance (view d3)
                       {| rec_course_id := cid;
                          rec_student_id := sid;
                          rec_date := date timestamp;
                          rec_timestamp := timestamp;
                          rec_status := "present" |};
           stdout := [AttendanceMarked sid cid] |}.
Proof.
  intros Hnos Hnoc Hne Hts Hsch Hst Hend Hwin Hnew d1 d2 d3.
  assert (Hspre : Forall (fun r => is_student sid r = false) (student_rows d)).
  { apply Forall_forall. intros r Hr. apply String.eqb_neq. now apply Hnos. }
  assert (Hcpre : Forall (fun r => is_course cid r = false) (course_rows d)).
  { apply Forall_forall. intros r Hr. apply String.eqb_neq. now apply Hnoc. }
  assert (E3 : d3 =
    {| student_rows :=
         student_rows d
         ++ [ {| row_student := {| student_id := sid;
                                   enrolled_courses := [cid] |};
                 student_name := name; student_email := email |} ];
       course_rows :=
         course_rows d
         ++ [ {| row_course := {| course_id := cid; schedule := sched |};
                 course_name := cname; instructor := instructor_name;
                 enrolled_students := [sid] |} ];
       attendance_rows := attendance_rows d |}).
  { subst d3 d2 d1. unfold create_course, create_student; simpl.
    erewrite enroll_found;
      [ | simpl; reflexivity | exact Hspre | apply String.eqb_refl
        | simpl; reflexivity | exact Hcpre | apply String.eqb_refl ].
    reflexivity. }
  assert (Hfind : find_current_course (view d3) sid timestamp = Ok (Some cid)).
  { rewrite (find_current_course_scan (view d3) sid timestamp
               {| student_id := sid; enrolled_courses := [cid] |} []).
    2:{ rewrite students_by_id_view, E3; simpl.
        rewrite filter_app, (@filter_none _ (is_student sid) (student_rows d))
          by (now apply Forall_forall).
        simpl. unfold is_student; simpl. now rewrite String.eqb_refl. }
    2:{ rewrite E3; simpl. rewrite map_app.
        destruct (map row_course (course_rows d)); discriminate. }
    rewrite E3; simpl. rewrite map_app. simpl. f_equal.
    change cid with (course_id {| course_id := cid; schedule := sched |}) at 2.
    apply scan_courses_first.
    - apply Forall_map. eapply Forall_impl; [|exact Hcpre].
      intros r Hr. unfold course_active, str_in. simpl.
      unfold is_course in Hr. rewrite Hr. reflexivity.
    - unfold course_active, str_in. simpl. rewrite String.eqb_refl. simpl.
      rewrite Hsch. now apply in_class_window_spec. }
  split; [exact Hfind|].
  apply mark_attendance_new; [exact Hfind | exact Hne |].
  intros [r [Hin Hr]]. apply Hnew. exists r. split; [|exact Hr].
  rewrite E3 in Hin. exact Hin.
Qed.

Lemma create_enroll_mark_witness :
  let d := {| student_rows := []; course_rows := []; attendance_rows := [] |} in
  let sched := [ (Sunday, {| start_time := mk_time 12 0;
                             end_time := mk_time 13 0 |}) ] in
  let timestamp := at_time 738892 12 5 0 in
  let d1 := snd (create_student d "000004" "Obaid Sajjad"
                   "hilmand.atk@gmail.com") in
  let d2 := snd (create_course d1 "CSE002" "Technical Writing"
                   "Dr. Ameer Sultan" sched) in
  let d3 := fst (enroll_student_to_course d2 "000004" "CSE002") in
  find_current_course (view d3) "000004" timestamp = Ok (Some "CSE002")
  /\ mark_attendance (view d3) "000004" timestamp =
     Ok {| returned := true;
           stored := push_attendance (view d3)
                       {| rec_course_id := "CSE002";
                          rec_student_id := "000004";
                          rec_date := 738892;
                          rec_timestamp := timestamp;
                          rec_status := "present" |};
           stdout := [AttendanceMarked "000004" "CSE002"] |}.
Proof.
  intros d sched timestamp.
  apply (create_enroll_mark d "000004" "Obaid Sajjad" "hilmand.atk@gmail.com"
           "CSE002" "Technical Writing" "Dr. Ameer Sultan" sched timestamp
           {| start_time := mk_time 12 0; end_time := mk_time 13 0 |}).
  - intros r [].
  - intros r [].
  - discriminate.
  - vm_compute. split; congruence.
  - reflexivity.
  - unfold valid_time; simpl; lia.
  - unfold valid_time; simpl; lia.
  - vm_compute. split; congruence.
  - intros [r [[] _]].
Defined.

(** ** ScheduleResolver: further properties *)

(** X5. Whatever [find_current_course] returns is the id of a course of the
    store that the first row of the student lists, that meets on the
    weekday of the timestamp, and whose window holds the timestamp. *)
Theorem find_current_course_sound (s : store) sid timestamp cid :
  find_current_course s sid timestamp = Ok (Some cid) ->
  exists st others c ct,
    students_by_id s sid = st :: others
    /\ In cid (enrolled_courses st)
    /\ In c (courses s) /\ course_id c = cid
    /\ schedule_get (strftime_A timestamp) (schedule c) = Some ct
    /\ in_class_window timestamp ct = true.
Proof.
  unfold find_current_course.
  destruct (students_by_id s sid) as [|st others]; [discriminate|].
  destruct (courses s) as [|c0 cs]; [discriminate|].
  intros H.
  assert (H' : scan_courses (enrolled_courses st) (strftime_A timestamp)
                 timestamp (c0 :: cs) = Some cid) by congruence.
  apply scan_courses_some in H'. destruct H' as [c [Hin [Hid Hact]]].
  unfold course_active in Hact.
  destruct (str_in (course_id c) (enrolled_courses st)) eqn:Een;
    [|discriminate].
  destruct (schedule_get (strftime_A timestamp) (schedule c)) as [ct|] eqn:Esch;
    [|discriminate].
  exists st, others, c, ct. simpl in Hact.
  repeat split; try assumption.
  rewrite <- Hid. now apply str_in_spec.
Qed.

Lemma find_current_course_sound_witness :
  exists st others c ct,
    students_by_id monday_store "000004" = st :: others
    /\ In "CSE002" (enrolled_courses st)
    /\ In c (courses monday_store) /\ course_id c = "CSE002"
    /\ schedule_get (strftime_A (at_time monday_2024_01_08 9 30 0))
         (schedule c) = Some ct
    /\ in_class_window (at_time monday_2024_01_08 9 30 0) ct = true.
Proof.
  apply (find_current_course_sound monday_store "000004"
           (at_time monday_2024_01_08 9 30 0) "CSE002").
  vm_compute. reflexivity.
Defined.



(** The window test looks at the time of day only. *)
Lemma in_class_window_any_date (d d' m : Z) (ct : class_time) :
  in_class_window {| date := d; micros := m |} ct
  = in_class_window {| date := d'; micros := m |} ct.
Proof.
  unfold in_class_window, leb, add_minutes, combine; simpl.
  rewrite !Z.ltb_irrefl, !Z.eqb_refl. simpl. f_equal.
  set (q := (time_micros (end_time ct) + 900000000) / MICROS_PER_DAY).
  destruct (Z.ltb_spec d (d + q)); destruct (Z.ltb_spec d' (d' + q));
    destruct (Z.eqb_spec d (d + q)); destruct (Z.eqb_spec d' (d' + q));
    first [reflexivity | lia].
Qed.

Lemma weekday_of_week (d k : Z) : weekday_of (d + 7 * k) = weekday_of d.
Proof.
  unfold weekday_of.
  replace (d + 7 * k + 6) with (d + 6 + k * 7) by lia.
  now rewrite Z.mod_add by lia.
Qed.

Lemma scan_courses_ext enrolled day t t' (cs : list course) :
  (forall ct, in_class_window t ct = in_class_window t' ct) ->
  scan_courses enrolled day t cs = scan_courses enrolled day t' cs.
Proof.
  intros H. induction cs as [|c rest IH]; [reflexivity|]. simpl.
  destruct (negb (str_in (course_id c) enrolled)); [exact IH|].
  destruct (schedule_get day (schedule c)) as [ct|]; [|exact IH].
  rewrite (H ct), IH. reflexivity.
Qed.

(** X7. The schedule is weekly: at the same time of day a whole number of
    weeks away, the same course is resolved. *)
Theorem find_current_course_weekly (s : store) sid (d m k : Z) :
  find_current_course s sid {| date := d + 7 * k; micros := m |}
  = find_current_course s sid {| date := d; micros := m |}.
Proof.
  unfold find_current_course, strftime_A.
  cbn [date]. rewrite weekday_of_week.
  destruct (students_by_id s sid) as [|st others]; [reflexivity|].
  destruct (courses s) as [|c cs]; [reflexivity|].
  f_equal. apply scan_courses_ext. intros ct.
  apply in_class_window_any_date.
Qed.

(** X8. A class whose end, with the grace period, comes before its start in
    the day (one that runs over midnight) never has an open window. *)
Theorem in_class_window_overnight (timestamp : datetime) (ct : class_time) :
  valid_datetime timestamp ->
  valid_time (start_time ct) -> valid_time (end_time ct) ->
  time_micros (end_time ct) + 15 * MICROS_PER_MINUTE
    < time_micros (start_time ct) ->
  in_class_window timestamp ct = false.
Proof.
  intros Ht Hs He Hlt.
  destruct (in_class_window timestamp ct) eqn:E; [|reflexivity].
  apply (@in_class_window_spec timestamp ct Ht Hs He) in E. lia.
Qed.

Lemma in_class_window_overnight_witness :
  in_class_window (at_time monday_2024_01_08 23 30 0)
    {| start_time := mk_time 23 0; end_time := mk_time 1 0 |} = false.
Proof.
  apply in_class_window_overnight.
  - vm_compute. split; congruence.
  - unfold valid_time; simpl; lia.
  - unfold valid_time; simpl; lia.
  - vm_compute. reflexivity.
Defined.

Lemma enroll_student_to_course_not_found_witness :
  enroll_student_to_course
    {| student_rows := []; course_rows := []; attendance_rows := [] |}
    "000004" "CSE002"
  = ({| student_rows := []; course_rows := []; attendance_rows := [] |},
     [StudentOrCourseNotFound]).
Proof.
  apply enroll_student_to_course_not_found.
  left. intros r [].
Defined.

(** ** AttendanceLedger: further properties *)

(** A call that returns either left the store alone and returned
    [False], or resolved a course without a record for the day and pushed
    the new record. *)
Lemma mark_attendance_cases (s : store) sid timestamp o :
  mark_attendance s sid timestamp = Ok o ->
  (returned o = false /\ stored o = s)
  \/ (exists cid,
         ~ has_record s sid cid (date timestamp)
         /\ returned o = true
         /\ stored o = push_attendance s
                         {| rec_course_id := cid; rec_student_id := sid;
                            rec_date := date timestamp;
                            rec_timestamp := timestamp;
                            rec_status := "present" |}).
Proof.
  unfold mark_attendance.
  destruct (find_current_course s sid timestamp) as [[cid|]|e]; simpl;
    [| intros [= <-]; left; auto | discriminate].
  destruct (String.eqb cid ""); [intros [= <-]; left; auto|].
  destruct (existsb (same_course_and_date cid (date timestamp))
              (attendance_by_student s sid)) eqn:E;
    intros [= <-]; [left; auto|].
  right. exists cid. simpl. split; [|auto].
  intros H. apply existsb_same_course_and_date in H. congruence.
Qed.

Lemma records_for_nil (s : store) sid cid day :
  ~ has_record s sid cid day -> records_for s sid cid day = [].
Proof.
  intros H. unfold records_for. apply filter_none. intros r Hin.
  destruct (String.eqb_spec (rec_student_id r) sid) as [Hs|]; [|reflexivity].
  unfold same_course_and_date.
  destruct (String.eqb_spec (rec_course_id r) cid) as [Hc|]; [|reflexivity].
  destruct (Z.eqb_spec (rec_date r) day) as [Hd|]; [|reflexivity].
  exfalso. apply H. exists r. auto.
Qed.

Lemma mark_attendance_keeps_unique (s : store) sid timestamp o :
  mark_attendance s sid timestamp = Ok o ->
  unique_attendance s -> unique_attendance (stored o).
Proof.
  intros Hm Hu.
  destruct (mark_attendance_cases s sid timestamp o Hm)
    as [[_ ->] | [cid [Hnew [_ ->]]]]; [exact Hu|].
  intros sid' cid' day'. unfold records_for, push_attendance; simpl.
  rewrite filter_app, length_app. simpl.
  unfold same_course_and_date at 2; simpl.
  destruct (String.eqb_spec sid sid') as [<-|]; simpl;
    [| specialize (Hu sid' cid' day'); unfold records_for in Hu; lia].
  destruct (String.eqb_spec cid cid') as [<-|]; simpl;
    [| specialize (Hu sid cid' day'); unfold records_for in Hu; lia].
  destruct (Z.eqb_spec (date timestamp) day') as [<-|]; simpl;
    [| specialize (Hu sid cid day'); unfold records_for in Hu; lia].
  pose proof (records_for_nil s sid cid (date timestamp) Hnew) as E.
  unfold records_for in E. rewrite E. simpl. lia.
Qed.

(** X9. The ledger's invariant: whatever calls of [mark_attendance] follow
    one another, a store with at most one record per student, course
    and day stays so. *)
Theorem mark_all_unique (s : store) (calls : list (string * datetime)) :
  unique_attendance s -> unique_attendance (mark_all s calls).
Proof.
  revert s. induction calls as [|[sid timestamp] rest IH]; intros s Hu;
    [exact Hu|].
  simpl. destruct (mark_attendance s sid timestamp) as [o|e] eqn:E.
  - apply IH. eapply mark_attendance_keeps_unique; eassumption.
  - now apply IH.
Qed.

Lemma mark_all_unique_witness :
  unique_attendance
    (mark_all monday_store
       [ ("000004", at_time monday_2024_01_08 9 5 0);
         ("000004", at_time monday_2024_01_08 9 30 0);
         ("000004", at_time (monday_2024_01_08 + 7) 9 30 0) ]).
Proof.
  apply mark_all_unique.
  intros sid cid day. simpl. lia.
Defined.

(** X10. A course whose id is the empty string is resolved by the schedule
    and then taken for no course at all: nothing is marked. *)
Theorem mark_attendance_empty_course_id (s : store) sid timestamp :
  find_current_course s sid timestamp = Ok (Some "") ->
  mark_attendance s sid timestamp =
  Ok {| returned := false; stored := s;
        stdout := [NoActiveCourseFound sid timestamp] |}.
Proof. intros H. unfold mark_attendance. rewrite H. reflexivity. Qed.

Lemma mark_attendance_empty_course_id_witness :
  let s := {| students := [ {| student_id := "000004";
                               enrolled_courses := [""] |} ];
              courses := [ {| course_id := "";
                              schedule := [ (Monday,
                                             {| start_time := mk_time 9 0;
                                                end_time := mk_time 10 0 |}) ]
                           |} ];
              attendance := [] |} in
  mark_attendance s "000004" (at_time monday_2024_01_08 9 30 0) =
  Ok {| returned := false; stored := s;
        stdout := [NoActiveCourseFound "000004"
                     (at_time monday_2024_01_08 9 30 0)] |}.
Proof.
  intros s. apply mark_attendance_empty_course_id.
  vm_compute. reflexivity.
Defined.

(** X11. Attendance is per day: after a mark on one day, a mark on another
    day for the same course returns [True] again and the two records
    stand side by side. *)
Theorem mark_attendance_next_day (s : store) sid cid t1 t2 :
  date t1 <> date t2 ->
  find_current_course s sid t1 = Ok (Some cid) ->
  find_current_course s sid t2 = Ok (Some cid) ->
  cid <> "" ->
  ~ has_record s sid cid (date t1) ->
  ~ has_record s sid cid (date t2) ->
  exists o1 o2,
    mark_attendance s sid t1 = Ok o1 /\ returned o1 = true
    /\ mark_attendance (stored o1) sid t2 = Ok o2 /\ returned o2 = true
    /\ attendance (stored o2)
       = attendance s
         ++ [ {| rec_course_id := cid; rec_student_id := sid;
                 rec_date := date t1; rec_timestamp := t1;
                 rec_status := "present" |};
              {| rec_course_id := cid; rec_student_id := sid;
                 rec_date := date t2; rec_timestamp := t2;
                 rec_status := "present" |} ].
Proof.
  intros Hd H1 H2 Hne Hn1 Hn2.
  eexists. eexists.
  split; [apply mark_attendance_new; eassumption|].
  split; [reflexivity|]. simpl.
  split.
  - apply mark_attendance_new; [exact H2 | exact Hne |].
    intros [r [Hin [Hs [Hc Hday]]]].
    simpl in Hin. apply in_app_or in Hin. destruct Hin as [Hin|[<-|[]]].
    + apply Hn2. exists r. auto.
    + simpl in Hday. contradiction.
  - split; [reflexivity|]. simpl. rewrite <- app_assoc. reflexivity.
Qed.

Lemma mark_attendance_next_day_witness :
  exists o1 o2,
    mark_attendance monday_store "000004" (at_time monday_2024_01_08 9 5 0)
    = Ok o1 /\ returned o1 = true
    /\ mark_attendance (stored o1) "000004"
         (at_time (monday_2024_01_08 + 7) 9 5 0) = Ok o2
    /\ returned o2 = true
    /\ attendance (stored o2)
       = attendance monday_store
         ++ [ {| rec_course_id := "CSE002"; rec_student_id := "000004";
                 rec_date := monday_2024_01_08;
                 rec_timestamp := at_time monday_2024_01_08 9 5 0;
                 rec_status := "present" |};
              {| rec_course_id := "CSE002"; rec_student_id := "000004";
                 rec_date := monday_2024_01_08 + 7;
                 rec_timestamp := at_time (monday_2024_01_08 + 7) 9 5 0;
                 rec_status := "present" |} ].
Proof.
  apply (mark_attendance_next_day monday_store "000004" "CSE002"
           (at_time monday_2024_01_08 9 5 0)
           (at_time (monday_2024_01_08 + 7) 9 5 0)).
  - vm_compute. discriminate.
  - vm_compute. reflexivity.
  - vm_compute. reflexivity.
  - discriminate.
  - intros [r [[] _]].
  - intros [r [[] _]].
Defined.

(** ** RecognitionPipeline: further properties *)

Section PipelineMore.

Variable encoding : Type.
Variable face_distance : encoding -> encoding -> Q.

(** X12. [trigger_led_blink] answers [True] exactly when there is a serial
    connection, it is open and the write goes through; exactly then the
    line "blink" is written, once, and otherwise the connection is left
    as it was. *)
Theorem trigger_led_blink_spec (a : app encoding) :
  (fst (trigger_led_blink a) = true <->
   exists sc, serial_connection a = Some sc
              /\ is_open sc = true /\ write_raises sc = false)
  /\ (forall sc,
         serial_connection a = Some sc ->
         fst (trigger_led_blink a) = true ->
         exists sc',
           serial_connection (snd (trigger_led_blink a)) = Some sc'
           /\ written sc' = written sc ++ [("blink" ++ String "010" "")%string]
           /\ is_open sc' = is_open sc)
  /\ (fst (trigger_led_blink a) = false ->
      serial_connection (snd (trigger_led_blink a)) = serial_connection a).
Proof.
  unfold trigger_led_blink.
  destruct (serial_connection a) as [sc|] eqn:Es.
  - destruct (is_open sc) eqn:Eo; [destruct (write_raises sc) eqn:Ew|];
      simpl; rewrite ?Es.
    + split; [|split].
      * split; [discriminate|].
        intros [sc' [[= <-] [_ H]]]. congruence.
      * intros sc' _ H. discriminate.
      * reflexivity.
    + split; [|split].
      * split; [|reflexivity]. intros _. exists sc. auto.
      * intros sc' [= <-] _. eexists. split; [reflexivity|]. simpl. auto.
      * discriminate.
    + split; [|split].
      * split; [discriminate|].
        intros [sc' [[= <-] [H _]]]. congruence.
      * intros sc' _ H. discriminate.
      * reflexivity.
  - simpl. rewrite Es. split; [|split].
    + split; [discriminate|]. intros [sc [H _]]. discriminate.
    + intros sc H. discriminate.
    + reflexivity.
Qed.

(** How [attend] leaves the application: gallery, students and courses
    as they were, and at most one record with status [present] more. *)
Lemma attend_frame (a : app encoding) sid timestamp :
  let a' := attend a sid timestamp in
  known_face_names a' = known_face_names a
  /\ known_face_encodings a' = known_face_encodings a
  /\ students (firebase_db a') = students (firebase_db a)
  /\ courses (firebase_db a') = courses (firebase_db a)
  /\ exists added,
      attendance (firebase_db a') = attendance (firebase_db a) ++ added
      /\ Forall (fun r => rec_status r = "present"
                          /\ rec_student_id r = sid) added
      /\ (List.length added <= 1)%nat.
Proof.
  unfold attend.
  destruct (mark_attendance (firebase_db a) sid timestamp) as [o|e] eqn:Em.
  - assert (Hstore :
      students (stored o) = students (firebase_db a)
      /\ courses (stored o) = courses (firebase_db a)
      /\ exists added,
          attendance (stored o) = attendance (firebase_db a) ++ added
          /\ Forall (fun r => rec_status r = "present"
                              /\ rec_student_id r = sid) added
          /\ (List.length added <= 1)%nat).
    { destruct (mark_attendance_cases _ _ _ _ Em)
        as [[_ ->] | [cid [_ [_ ->]]]].
      - split; [reflexivity|]. split; [reflexivity|].
        exists []. rewrite app_nil_r. simpl. auto.
      - split; [reflexivity|]. split; [reflexivity|].
        eexists. split; [reflexivity|]. split; [|simpl; lia].
        constructor; [simpl; auto | constructor]. }
    destruct (returned o).
    + pose proof (trigger_led_blink_frame
                    (log (after_mark a o) (InfoAttendanceMarked sid))) as F.
      destruct (trigger_led_blink
                  (log (after_mark a o) (InfoAttendanceMarked sid)))
        as [[|] a3]; simpl in *;
        destruct F as [-> [_ [-> ->]]]; tauto.
    + simpl. tauto.
  - simpl. split; [reflexivity|]. split; [reflexivity|].
    split; [reflexivity|]. split; [reflexivity|].
    exists []. rewrite app_nil_r. simpl. auto.
Qed.

Lemma recognize_face_frame (a a' : app encoding) f ann :
  recognize_face face_distance a f = Ok (a', ann) ->
  known_face_names a' = known_face_names a
  /\ known_face_encodings a' = known_face_encodings a
  /\ students (firebase_db a') = students (firebase_db a)
  /\ courses (firebase_db a') = courses (firebase_db a)
  /\ exists added,
      attendance (firebase_db a') = attendance (firebase_db a) ++ added
      /\ Forall (fun r => rec_status r = "present") added
      /\ (List.length added <= 1)%nat.
Proof.
  unfold recognize_face.
  destruct (match_face face_distance a (face_encoding f)) as [[sid|]|e];
    simpl; [| |discriminate].
  - intros [= <- _].
    destruct (attend_frame a sid (now f))
      as [Hn [He [Hs [Hc [added [Ha [Hp Hl]]]]]]].
    repeat split; try assumption.
    exists added. repeat split; try assumption.
    eapply Forall_impl; [|exact Hp]. intros r [H _]. exact H.
  - intros [= <- _]. repeat split.
    exists []. rewrite app_nil_r. simpl. auto.
Qed.

Lemma recognize_loop_frame faces : forall (a : app encoding) drawn,
  let a' := fst (recognize_loop face_distance a drawn faces) in
  known_face_names a' = known_face_names a
  /\ known_face_encodings a' = known_face_encodings a
  /\ students (firebase_db a') = students (firebase_db a)
  /\ courses (firebase_db a') = courses (firebase_db a)
  /\ exists added,
      attendance (firebase_db a') = attendance (firebase_db a) ++ added
      /\ Forall (fun r => rec_status r = "present") added
      /\ (List.length added <= List.length faces)%nat.
Proof.
  induction faces as [|f rest IH]; intros a drawn; simpl.
  - repeat split. exists []. rewrite app_nil_r. simpl. auto.
  - destruct (recognize_face face_distance a f) as [[a1 ann]|e] eqn:E.
    + destruct (recognize_face_frame a a1 f ann E)
        as [Hn [He [Hs [Hc [added1 [Ha [Hp Hl]]]]]]].
      destruct (IH a1 (drawn ++ [ann]))
        as [Hn' [He' [Hs' [Hc' [added2 [Ha' [Hp' Hl']]]]]]].
      repeat split; try congruence.
      exists (added1 ++ added2). repeat split.
      * rewrite Ha', Ha, app_assoc. reflexivity.
      * apply Forall_app. auto.
      * rewrite length_app. lia.
    + simpl. repeat split. exists []. rewrite app_nil_r. simpl.
      split; [reflexivity|]. split; [constructor | lia].
Qed.

(** X13. Recognition never changes the gallery, the students or the courses,
    and never rewrites or removes an attendance record: it only appends
    records with status [present], at most one per face of the frame. *)
Theorem recognize_faces_appends (a : app encoding) frame :
  let a' := fst (recognize_faces face_distance a frame) in
  known_face_names a' = known_face_names a
  /\ known_face_encodings a' = known_face_encodings a
  /\ students (firebase_db a') = students (firebase_db a)
  /\ courses (firebase_db a') = courses (firebase_db a)
  /\ exists added,
      attendance (firebase_db a') = attendance (firebase_db a) ++ added
      /\ Forall (fun r => rec_status r = "present") added
      /\ (List.length added
          <= match frame with Some faces => List.length faces | None => 0 end)%nat.
Proof.
  destruct frame as [faces|]; simpl.
  - pose proof (recognize_loop_frame faces a []) as H.
    destruct (recognize_loop face_distance a [] faces) as [a1 drawn].
    exact H.
  - repeat split. exists []. rewrite app_nil_r. simpl. auto.
Qed.

End PipelineMore.

Lemma trigger_led_blink_spec_witness :
  let a := fresh_app (Some open_serial) monday_store in
  exists sc',
    serial_connection (snd (trigger_led_blink a)) = Some sc'
    /\ written sc'
       = written open_serial ++ [("blink" ++ String "010" "")%string]
    /\ is_open sc' = is_open open_serial.
Proof.
  intros a.
  apply (proj1 (proj2 (trigger_led_blink_spec Q a)) open_serial);
    reflexivity.
Defined.

Lemma index_true_lt (l : list bool) i :
  index_true l = Some i -> (i < List.length l)%nat.
Proof.
  revert i. induction l as [|b l IH]; intros i; simpl; [discriminate|].
  destruct b.
  - intros [= <-]. lia.
  - destruct (index_true l) as [j|]; simpl; [|discriminate].
    intros [= <-]. specialize (IH j eq_refl). lia.
Qed.

Section Annotation.

Variable encoding : Type.
Variable face_distance : encoding -> encoding -> Q.

(** With as many names as encodings, matching raises nothing and
    answers with a known name or with none. *)
Lemma match_face_aligned (a : app encoding) face :
  List.length (known_face_names a) = List.length (known_face_encodings a) ->
  match_face face_distance a face = Ok None
  \/ exists sid, match_face face_distance a face = Ok (Some sid)
                 /\ In sid (known_face_names a).
Proof.
  intros Hlen. unfold match_face.
  destruct (index_true (compare_faces face_distance (known_face_encodings a)
                          face TOLERANCE)) as [i|] eqn:E; [|now left].
  apply index_true_lt in E. unfold compare_faces in E.
  rewrite length_map, <- Hlen in E.
  destruct (nth_error (known_face_names a) i) as [sid|] eqn:En.
  - right. exists sid. split; [reflexivity|].
    eapply nth_error_In. exact En.
  - apply nth_error_None in En. lia.
Qed.

Lemma recognize_loop_annotates faces : forall (a : app encoding) drawn0,
  List.length (known_face_names a) = List.length (known_face_encodings a) ->
  exists drawn,
    snd (recognize_loop face_distance a drawn0 faces) = drawn0 ++ drawn
    /\ map (fun ann : annotation => fst (fst ann)) drawn = map (@location _) faces
    /\ Forall (fun ann : annotation =>
                 (snd (fst ann) = "Unknown" /\ snd ann = Red)
                 \/ (In (snd (fst ann)) (known_face_names a)
                     /\ snd ann = Green)) drawn.
Proof.
  induction faces as [|f rest IH]; intros a drawn0 Hlen; simpl.
  - exists []. rewrite app_nil_r. auto.
  - assert (Hstep : exists a1 ann,
               recognize_face face_distance a f = Ok (a1, ann)
               /\ fst (fst ann) = location f
               /\ ((snd (fst ann) = "Unknown" /\ snd ann = Red)
                   \/ (In (snd (fst ann)) (known_face_names a)
                       /\ snd ann = Green))).
    { unfold recognize_face.
      destruct (match_face_aligned a (face_encoding f) Hlen)
        as [-> | [sid [-> Hin]]]; simpl.
      - eexists. eexists. split; [reflexivity|]. simpl. auto.
      - eexists. eexists. split; [reflexivity|]. simpl. auto. }
    destruct Hstep as [a1 [ann [E [Hloc Hann]]]]. rewrite E.
    destruct (recognize_face_frame _ face_distance a a1 f ann E)
      as [Hn [He _]].
    destruct (IH a1 (drawn0 ++ [ann])) as [drawn [Hd [Hm Hf]]];
      [congruence|].
    exists (ann :: drawn). split; [|split].
    + rewrite Hd, <- app_assoc. reflexivity.
    + simpl. rewrite Hloc, Hm. reflexivity.
    + constructor; [exact Hann|]. rewrite <- Hn. exact Hf.
Qed.

(** X14. With as many names as encodings in the gallery, every face of the
    frame is drawn, in order and at its own location: red and "Unknown",
    or green with a name of the gallery. *)
Theorem recognize_faces_annotates (a : app encoding) faces :
  List.length (known_face_names a) = List.length (known_face_encodings a) ->
  exists drawn,
    snd (recognize_faces face_distance a (Some faces)) = Some drawn
    /\ map (fun ann : annotation => fst (fst ann)) drawn = map (@location _) faces
    /\ Forall (fun ann : annotation =>
                 (snd (fst ann) = "Unknown" /\ snd ann = Red)
                 \/ (In (snd (fst ann)) (known_face_names a)
                     /\ snd ann = Green)) drawn.
Proof.
  intros Hlen. unfold recognize_faces.
  destruct (recognize_loop_annotates faces a [] Hlen) as [drawn [Hd H]].
  destruct (recognize_loop face_distance a [] faces) as [a1 drawn1].
  simpl in *. subst drawn1. exists drawn. auto.
Qed.

(** X15. A frame in which no face is within the tolerance of a known
    encoding has no effect at all: every face is drawn red as "Unknown"
    and the application is as before. *)
Theorem recognize_faces_unknown (a : app encoding) faces :
  (forall f k, In f faces -> In k (known_face_encodings a) ->
               (TOLERANCE < face_distance k (face_encoding f))%Q) ->
  recognize_faces face_distance a (Some faces)
  = (a, Some (map (fun f => (location f, "Unknown", Red)) faces)).
Proof.
  intros H. unfold recognize_faces.
  assert (G : forall drawn0,
             recognize_loop face_distance a drawn0 faces
             = (a, drawn0 ++ map (fun f => (location f, "Unknown", Red)) faces)).
  { induction faces as [|f rest IH]; intros drawn0; simpl.
    - now rewrite app_nil_r.
    - unfold recognize_face.
      rewrite (@match_face_none _ face_distance a (face_encoding f)).
      + simpl. rewrite IH.
        * now rewrite <- app_assoc.
        * intros f' k Hf Hk. apply H; [now right | exact Hk].
      + apply Forall_forall. intros k Hk. apply H; [now left | exact Hk]. }
  rewrite G. reflexivity.
Qed.

(** X16. A registered student recognised while the store holds no course:
    the exception of [mark_attendance] is caught and logged, the face is
    still drawn green with the student's id, and store, serial line and
    console are untouched. *)
Theorem recognize_face_without_courses (a : app encoding) f sid st others :
  match_face face_distance a (face_encoding f) = Ok (Some sid) ->
  students_by_id (firebase_db a) sid = st :: others ->
  courses (firebase_db a) = [] ->
  recognize_face face_distance a f
  = Ok (log a (ErrorMarkingAttendance AttributeError),
        (location f, sid, Green)).
Proof.
  intros Hm Hs Hc. unfold recognize_face. rewrite Hm. simpl.
  unfold attend, mark_attendance, find_current_course.
  rewrite Hs, Hc. reflexivity.
Qed.

End Annotation.

Lemma recognize_faces_annotates_witness :
  let a := two_faces_app None gallery_store in
  let faces := [ {| location := (10, 90, 90, 10); face_encoding := (0 # 1)%Q;
                    now := at_time monday_2024_01_08 9 30 0 |};
                 {| location := (10, 190, 90, 110); face_encoding := (2 # 1)%Q;
                    now := at_time monday_2024_01_08 9 30 0 |} ] in
  exists drawn,
    snd (recognize_faces point_distance a (Some faces)) = Some drawn
    /\ map (fun ann : annotation => fst (fst ann)) drawn
       = map (@location _) faces
    /\ Forall (fun ann : annotation =>
                 (snd (fst ann) = "Unknown" /\ snd ann = Red)
                 \/ (In (snd (fst ann)) (known_face_names a)
                     /\ snd ann = Green)) drawn.
Proof.
  intros a faces.
  apply (recognize_faces_annotates Q point_distance a faces).
  reflexivity.
Defined.

Lemma recognize_faces_unknown_witness :
  let a := two_faces_app (Some open_serial) gallery_store in
  let faces := [ {| location := (10, 190, 90, 110); face_encoding := (2 # 1)%Q;
                    now := at_time monday_2024_01_08 9 30 0 |} ] in
  recognize_faces point_distance a (Some faces)
  = (a, Some (map (fun f => (location f, "Unknown", Red)) faces)).
Proof.
  intros a faces.
  apply (recognize_faces_unknown Q point_distance a faces).
  intros f k [<-|[]] [<-|[<-|[]]]; vm_compute; reflexivity.
Defined.

Lemma recognize_face_without_courses_witness :
  let a := {| known_face_encodings := [4 # 10]%Q;
              known_face_names := ["000004"];
              serial_connection := Some open_serial;
              firebase_db := student_only_store;
              console := []; logger := [] |} in
  let f := {| location := (10, 90, 90, 10); face_encoding := (0 # 1)%Q;
              now := at_time monday_2024_01_08 9 30 0 |} in
  recognize_face point_distance a f
  = Ok (log a (ErrorMarkingAttendance AttributeError),
        (location f, "000004", Green)).
Proof.
  intros a f.
  apply (recognize_face_without_courses Q point_distance a f "000004"
           {| student_id := "000004"; enrolled_courses := [] |} []);
    reflexivity.
Defined.

Section SameStudent.

Variable encoding : Type.
Variable face_distance : encoding -> encoding -> Q.

Lemma match_face_gallery (a b : app encoding) face :
  known_face_names a = known_face_names b ->
  known_face_encodings a = known_face_encodings b ->
  match_face face_distance a face = match_face face_distance b face.
Proof. intros Hn He. unfold match_face. now rewrite Hn, He. Qed.

(** After a mark that returned, the store is the one it wrote and the
    console has its line; the gallery is as before. *)
Lemma attend_after_mark (a : app encoding) sid timestamp o :
  mark_attendance (firebase_db a) sid timestamp = Ok o ->
  let a' := attend a sid timestamp in
  firebase_db a' = stored o
  /\ console a' = console a ++ stdout o
  /\ known_face_names a' = known_face_names a
  /\ known_face_encodings a' = known_face_encodings a.
Proof.
  intros Hm. unfold attend. rewrite Hm.
  destruct (returned o); [|simpl; auto].
  pose proof (trigger_led_blink_frame
                (log (after_mark a o) (InfoAttendanceMarked sid))) as F.
  destruct (trigger_led_blink
              (log (after_mark a o) (InfoAttendanceMarked sid)))
    as [[|] a3]; simpl in *; destruct F as [-> [-> [-> ->]]]; auto.
Qed.

(** X17. The same student seen twice in one frame is marked once: the first
    face writes the record, the second finds it, and both are drawn
    green. *)
Theorem recognize_faces_same_student_twice (a : app encoding) f1 f2 sid cid :
  match_face face_distance a (face_encoding f1) = Ok (Some sid) ->
  match_face face_distance a (face_encoding f2) = Ok (Some sid) ->
  date (now f1) = date (now f2) ->
  find_current_course (firebase_db a) sid (now f1) = Ok (Some cid) ->
  find_current_course (firebase_db a) sid (now f2) = Ok (Some cid) ->
  cid <> "" ->
  ~ has_record (firebase_db a) sid cid (date (now f1)) ->
  let r := recognize_faces face_distance a (Some [f1; f2]) in
  attendance (firebase_db (fst r))
  = attendance (firebase_db a)
    ++ [ {| rec_course_id := cid; rec_student_id := sid;
            rec_date := date (now f1); rec_timestamp := now f1;
            rec_status := "present" |} ]
  /\ console (fst r)
     = console a ++ [ AttendanceMarked sid cid;
                      AttendanceAlreadyMarked sid cid (date (now f2)) ]
  /\ snd r = Some [ (location f1, sid, Green); (location f2, sid, Green) ].
Proof.
  intros Hm1 Hm2 Hd Hf1 Hf2 Hne Hnew.
  pose proof (@mark_attendance_new (firebase_db a) sid (now f1) cid
                Hf1 Hne Hnew) as Ho1.
  destruct (attend_after_mark a sid (now f1) _ Ho1) as [Hdb1 [Hc1 [Hn1 He1]]].
  simpl in Hdb1, Hc1.
  set (a1 := attend a sid (now f1)) in *.
  assert (Hm2' : match_face face_distance a1 (face_encoding f2)
                 = Ok (Some sid)).
  { rewrite (match_face_gallery a1 a _ Hn1 He1). exact Hm2. }
  assert (Ho2 : mark_attendance (firebase_db a1) sid (now f2) =
                Ok {| returned := false; stored := firebase_db a1;
                      stdout := [AttendanceAlreadyMarked sid cid
                                   (date (now f2))] |}).
  { apply mark_attendance_already; [| exact Hne |].
    - rewrite Hdb1. exact Hf2.
    - rewrite Hdb1, <- Hd. apply has_record_push. }
  destruct (attend_after_mark a1 sid (now f2) _ Ho2) as [Hdb2 [Hc2 _]].
  simpl in Hdb2, Hc2.
  unfold recognize_faces, recognize_loop, recognize_face.
  rewrite Hm1. simpl. fold a1. rewrite Hm2'. simpl.
  rewrite Hdb2, Hc2, Hdb1, Hc1, <- app_assoc. simpl. auto.
Qed.

End SameStudent.

Lemma recognize_faces_same_student_twice_witness :
  let a := two_faces_app (Some open_serial) gallery_store in
  let f1 := {| location := (10, 90, 90, 10); face_encoding := (0 # 1)%Q;
               now := at_time monday_2024_01_08 9 30 0 |} in
  let f2 := {| location := (10, 190, 90, 110); face_encoding := (1 # 10)%Q;
               now := at_time monday_2024_01_08 9 30 1 |} in
  let r := recognize_faces point_distance a (Some [f1; f2]) in
  attendance (firebase_db (fst r))
  = attendance (firebase_db a)
    ++ [ {| rec_course_id := "CSE002"; rec_student_id := "000001";
            rec_date := date (now f1); rec_timestamp := now f1;
            rec_status := "present" |} ]
  /\ console (fst r)
     = console a ++ [ AttendanceMarked "000001" "CSE002";
                      AttendanceAlreadyMarked "000001" "CSE002"
                        (date (now f2)) ]
  /\ snd r = Some [ (location f1, "000001", Green);
                    (location f2, "000001", Green) ].
Proof.
  intros a f1 f2.
  apply (recognize_faces_same_student_twice Q point_distance a f1 f2
           "000001" "CSE002").
  - reflexivity.
  - reflexivity.
  - reflexivity.
  - vm_compute. reflexivity.
  - vm_compute. reflexivity.
  - discriminate.
  - intros [r [[] _]].
Defined.

(** ** Gallery: the log of a load and the names of the files *)

Section LoadLog.

Variable encoding : Type.

Lemma load_loop_log entries : forall (a : app encoding) n,
  logger (fst (load_loop a n entries)) = logger a ++ load_errors entries
  /\ snd (load_loop a n entries)
     = (n + List.length (gallery_of entries))%nat.
Proof.
  induction entries as [|[filename file] rest IH]; intros a n.
  - simpl. rewrite app_nil_r. auto.
  - cbn [load_loop]. rewrite (gallery_of_cons (filename, file) rest).
    unfold load_errors. cbn [flat_map]. fold (load_errors rest).
    unfold load_one, gallery_of at 1, identity_of; cbn [fst snd flat_map].
    destruct (Path.is_image_name filename).
    + destruct file as [|[|e faces]].
      * destruct (IH (log a (ErrorProcessing filename)) n) as [Hl Hn].
        rewrite Hl, Hn. simpl. rewrite <- app_assoc. auto.
      * destruct (IH a n) as [Hl Hn]. rewrite Hl, Hn. simpl. auto.
      * destruct (IH (append_known a e (fst (Path.splitext filename))) (S n))
          as [Hl Hn].
        rewrite Hl, Hn. simpl. split; [reflexivity | lia].
    + destruct (IH a n) as [Hl Hn]. rewrite Hl, Hn. simpl. auto.
Qed.

(** X18. What a load logs: an error for every image that did not decode, in
    directory order, then the number of faces loaded, which is the number
    of identities added to the gallery. When the directory cannot be
    listed, one error is logged and the gallery is left as it was. *)
Theorem load_known_faces_log (a : app encoding) :
  (forall entries,
      let a' := load_known_faces a (Some entries) in
      logger a'
      = logger a ++ load_errors entries
        ++ [InfoLoaded (List.length (gallery_of entries))]
      /\ List.length (known_face_names a')
         = (List.length (known_face_names a)
            + List.length (gallery_of entries))%nat)
  /\ (let a' := load_known_faces a None in
      logger a' = logger a ++ [ErrorLoadingKnownFaces]
      /\ known_face_names a' = known_face_names a
      /\ known_face_encodings a' = known_face_encodings a).
Proof.
  split; [|simpl; auto].
  intros entries a'. subst a'.
  destruct (load_known_faces_gallery a entries) as [Hnames _].
  rewrite Hnames, length_app, length_map.
  unfold load_known_faces.
  destruct (load_loop_log entries a O) as [Hl Hn].
  destruct (load_loop a 0 entries) as [a1 n1]; simpl in *.
  rewrite Hl, Hn, <- app_assoc. auto.
Qed.

End LoadLog.

Module PathFacts.

Import Path.

Lemma append_empty_r (s : string) : (s ++ "")%string = s.
Proof. induction s as [|c s IH]; simpl; [reflexivity | now rewrite IH]. Qed.

Lemma length_append (s t : string) :
  String.length (s ++ t) = (String.length s + String.length t)%nat.
Proof. induction s as [|c s IH]; simpl; [reflexivity | now rewrite IH]. Qed.

Lemma substring_all (s : string) : substring 0 (String.length s) s = s.
Proof. induction s as [|c s IH]; simpl; [reflexivity | now rewrite IH]. Qed.

Lemma substring_prefix (s t : string) :
  substring 0 (String.length s) (s ++ t) = s.
Proof.
  induction s as [|c s IH]; simpl; [now destruct t | now rewrite IH].
Qed.

Lemma substring_suffix (s t : string) :
  substring (String.length s) (String.length t) (s ++ t) = t.
Proof.
  induction s as [|c s IH]; simpl; [apply substring_all | exact IH].
Qed.

Lemma substring_split (s : string) : forall n,
  (n <= String.length s)%nat ->
  (substring 0 n s ++ substring n (String.length s - n) s)%string = s.
Proof.
  induction s as [|c s IH]; intros n Hn; simpl in *.
  - replace n with O by lia. reflexivity.
  - destruct n as [|n]; simpl.
    + now rewrite substring_all.
    + rewrite IH by lia. reflexivity.
Qed.

Lemma rfind_dot_lt (s : string) i :
  rfind_dot s = Some i -> (i < String.length s)%nat.
Proof.
  revert i. induction s as [|c s IH]; intros i; simpl; [discriminate|].
  destruct (rfind_dot s) as [j|].
  - intros [= <-]. specialize (IH j eq_refl). lia.
  - destruct (Ascii.eqb c "."); [|discriminate]. intros [= <-]. lia.
Qed.

Lemma rfind_dot_last (stem ext : string) :
  rfind_dot ext = None ->
  rfind_dot (stem ++ String "." ext) = Some (String.length stem).
Proof.
  intros H. induction stem as [|c stem IH]; simpl.
  - rewrite H. reflexivity.
  - rewrite IH. reflexivity.
Qed.

Lemma lower_ascii_idempotent (c : ascii) :
  lower_ascii (lower_ascii c) = lower_ascii c.
Proof. destruct c as [[] [] [] [] [] [] [] []]; reflexivity. Qed.

Lemma lower_ascii_dot (c : ascii) :
  Ascii.eqb (lower_ascii c) "." = Ascii.eqb c ".".
Proof. destruct c as [[] [] [] [] [] [] [] []]; reflexivity. Qed.

Lemma lower_append (s t : string) :
  lower (s ++ t) = (lower s ++ lower t)%string.
Proof. induction s as [|c s IH]; simpl; [reflexivity | now rewrite IH]. Qed.

Lemma rfind_dot_lower (s : string) : rfind_dot (lower s) = rfind_dot s.
Proof.
  induction s as [|c s IH]; simpl; [reflexivity|].
  now rewrite IH, lower_ascii_dot.
Qed.

Lemma endswith_append (s suffix : string) : endswith (s ++ suffix) suffix = true.
Proof.
  unfold endswith. rewrite length_append.
  replace (String.length s + String.length suffix - String.length suffix)%nat
    with (String.length s) by lia.
  rewrite substring_suffix, String.eqb_refl.
  apply andb_true_iff. split; [apply Nat.leb_le; lia | reflexivity].
Qed.

(** X19. [os.path.splitext] splits: root and extension put together are the
    name again; the extension is empty or starts at the last dot. *)
Theorem splitext_join (p : string) :
  (fst (splitext p) ++ snd (splitext p))%string = p
  /\ (snd (splitext p) = ""
      \/ exists i, rfind_dot p = Some i
                   /\ fst (splitext p) = substring 0 i p
                   /\ get 0 (snd (splitext p)) = Some "."%char
                   /\ rfind_dot (snd (splitext p)) = Some O).
Proof.
  unfold splitext.
  destruct (rfind_dot p) as [i|] eqn:E; simpl;
    [|split; [apply append_empty_r | now left]].
  destruct (has_non_dot (substring 0 i p)); simpl;
    [|split; [apply append_empty_r | now left]].
  pose proof (rfind_dot_lt _ _ E) as Hlt.
  split; [apply substring_split; lia|].
  right. exists i. split; [reflexivity|]. split; [reflexivity|].
  clear Hlt. revert i E. induction p as [|c p IH]; intros i; simpl;
    [discriminate|].
  destruct (rfind_dot p) as [j|] eqn:Ep.
  - intros [= <-]. simpl. apply (IH j eq_refl).
  - destruct (Ascii.eqb_spec c "."); [|discriminate].
    intros [= <-]. subst c. simpl.
    replace (String.length p - 0)%nat with (String.length p) by lia.
    rewrite substring_all, Ep. auto.
Qed.

(** The name before the last dot is the root, whatever dots it holds
    itself, unless it is empty or made of dots only: such a name has no
    extension and is its own root. *)
Lemma splitext_last_dot (stem ext : string) :
  rfind_dot ext = None ->
  splitext (stem ++ String "." ext)
  = if has_non_dot stem then (stem, String "." ext)
    else ((stem ++ String "." ext)%string, "").
Proof.
  intros H. unfold splitext. rewrite (rfind_dot_last stem ext H).
  rewrite substring_prefix.
  destruct (has_non_dot stem); [|reflexivity].
  rewrite length_append.
  replace (String.length stem + String.length (String "." ext)
           - String.length stem)%nat
    with (String.length (String "." ext)) by lia.
  rewrite substring_suffix. reflexivity.
Qed.

(** A name is taken for an image whatever the letter case of its
    extension. *)
Lemma is_image_name_any_case (stem ext : string) :
  In (lower ext) ["jpg"; "jpeg"; "png"] ->
  is_image_name (stem ++ String "." ext) = true.
Proof.
  intros H. unfold is_image_name.
  rewrite lower_append. simpl lower.
  change (lower_ascii ".") with "."%char.
  destruct H as [E|[E|[E|[]]]]; rewrite <- E.
  - change (endswith (lower stem ++ String "." "jpg") ".jpg"
            || endswith (lower stem ++ String "." "jpg") ".jpeg"
            || endswith (lower stem ++ String "." "jpg") ".png" = true).
    now rewrite (endswith_append (lower stem) ".jpg").
  - change (endswith (lower stem ++ String "." "jpeg") ".jpg"
            || endswith (lower stem ++ String "." "jpeg") ".jpeg"
            || endswith (lower stem ++ String "." "jpeg") ".png" = true).
    rewrite (endswith_append (lower stem) ".jpeg").
    now rewrite orb_true_r.
  - change (endswith (lower stem ++ String "." "png") ".jpg"
            || endswith (lower stem ++ String "." "png") ".jpeg"
            || endswith (lower stem ++ String "." "png") ".png" = true).
    rewrite (endswith_append (lower stem) ".png").
    now rewrite orb_true_r.
Qed.

End PathFacts.

Lemma splitext_last_dot_witness :
  Path.splitext "000001.backup.JPG" = ("000001.backup", ".JPG")
  /\ Path.splitext ".png" = (".png", "").
Proof.
  split.
  - apply (PathFacts.splitext_last_dot "000001.backup" "JPG"). reflexivity.
  - apply (PathFacts.splitext_last_dot "" "png"). reflexivity.
Defined.

Lemma is_image_name_any_case_witness :
  Path.is_image_name "000001.JpEg" = true.
Proof.
  apply (PathFacts.is_image_name_any_case "000001" "JpEg").
  simpl. auto.
Defined.

(** ** Gallery: the label of a picture *)

(** X20. A picture with a face, named with an image extension in any letter
    case, enters the gallery under its name without the extension; a
    name that is nothing but dots before the extension enters whole. *)
Theorem load_known_faces_label (encoding : Type) (a : app encoding)
    stem ext (e : encoding) faces :
  In (Path.lower ext) ["jpg"; "jpeg"; "png"] ->
  let filename := (stem ++ String "." ext)%string in
  let a' := load_known_faces a (Some [ (filename, Decoded (e :: faces)) ]) in
  known_face_names a'
  = known_face_names a
    ++ [ if Path.has_non_dot stem then stem else filename ]
  /\ known_face_encodings a' = known_face_encodings a ++ [e].
Proof.
  intros Hext filename a'. subst a'.
  assert (Hnodot : Path.rfind_dot ext = None).
  { rewrite <- PathFacts.rfind_dot_lower.
    destruct Hext as [E|[E|[E|[]]]]; rewrite <- E; reflexivity. }
  unfold load_known_faces, load_loop, load_one.
  subst filename.
  rewrite (PathFacts.is_image_name_any_case stem ext Hext).
  rewrite (PathFacts.splitext_last_dot stem ext Hnodot).
  destruct (Path.has_non_dot stem); simpl; auto.
Qed.

Lemma load_known_faces_label_witness :
  let a := fresh_app None monday_store in
  let a' := load_known_faces a
              (Some [ ("000007.PNG", Decoded [7 # 10; 1 # 10]%Q) ]) in
  known_face_names a'
  = known_face_names a
    ++ [ if Path.has_non_dot "000007" then "000007" else "000007.PNG" ]
  /\ known_face_encodings a' = known_face_encodings a ++ [7 # 10]%Q.
Proof.
  intros a.
  apply (load_known_faces_label Q a "000007" "PNG" (7 # 10)%Q [1 # 10]%Q).
  simpl. auto.
Defined.

(** ** Construction *)

Section Construction.

Variable encoding : Type.
Variable face_distance : encoding -> encoding -> Q.

Lemma load_loop_console entries : forall (a : app encoding) n,
  console (fst (load_loop a n entries)) = console a.
Proof.
  induction entries as [|[filename file] rest IH]; intros a n; [reflexivity|].
  cbn [load_loop]. unfold load_one.
  destruct (Path.is_image_name filename);
    [destruct file as [|[|e faces]]|]; rewrite IH; reflexivity.
Qed.

(** X21. Without a database the application is not constructed, whatever the
    serial line and the gallery; with one it is, even when the serial
    line could not be opened, on that store, with that serial line, and
    with the gallery of the directory alone. *)
Theorem init_outcome (opened : option serial) (db : option store)
    (listing : option (list (string * image_file encoding))) :
  match db with
  | None => exists lines, init opened None listing = ConnectionFailed lines
  | Some s =>
      exists lines a,
        init opened (Some s) listing = Started lines a
        /\ firebase_db a = s
        /\ serial_connection a = opened
        /\ console a = []
        /\ known_face_names a
           = match listing with
             | Some entries => map fst (gallery_of entries)
             | None => []
             end
        /\ known_face_encodings a
           = match listing with
             | Some entries => map snd (gallery_of entries)
             | None => []
             end
  end.
Proof.
  destruct db as [s|]; [|eexists; reflexivity].
  eexists. eexists. split; [reflexivity|].
  destruct listing as [entries|]; [|simpl; auto 10].
  set (a0 := {| known_face_encodings := []; known_face_names := [];
                serial_connection := opened; firebase_db := s;
                console := []; logger := [] |}).
  destruct (load_known_faces_gallery a0 entries) as [Hn He].
  rewrite Hn, He. simpl.
  unfold load_known_faces.
  pose proof (load_loop_gallery entries a0 O) as [_ [_ [Hs Hd]]].
  pose proof (load_loop_console entries a0 O) as Hc.
  destruct (load_loop a0 0 entries) as [a1 n1]; simpl in *.
  auto.
Qed.

(** X22. Once constructed, the application draws every face of every frame:
    the gallery it loaded has a name for each encoding, so matching never
    runs past the names. *)
Theorem init_then_recognize (opened : option serial) (s : store)
    (listing : option (list (string * image_file encoding))) lines a faces :
  init opened (Some s) listing = Started lines a ->
  exists drawn,
    snd (recognize_faces face_distance a (Some faces)) = Some drawn
    /\ map (fun ann : annotation => fst (fst ann)) drawn
       = map (@location _) faces.
Proof.
  unfold init. intros [= _ <-].
  set (a := load_known_faces
              {| known_face_encodings := []; known_face_names := [];
                 serial_connection := opened; firebase_db := s;
                 console := []; logger := [] |} listing).
  destruct (recognize_loop_annotates encoding face_distance faces a [])
    as [drawn [Hd [Hm _]]].
  - apply load_known_faces_lengths. reflexivity.
  - unfold recognize_faces.
    destruct (recognize_loop face_distance a [] faces) as [a1 drawn1].
    simpl in *. subst drawn1. exists drawn. auto.
Qed.

(** X23. When the serial line could not be opened, attendance is recorded
    all the same and the signal is reported as failed: after a mark that
    returned [True] the store is the one the mark wrote and the log ends
    with the mark, the missing serial line and the failed trigger. *)
Theorem recognize_face_without_serial (a : app encoding) f sid o :
  serial_connection a = None ->
  match_face face_distance a (face_encoding f) = Ok (Some sid) ->
  mark_attendance (firebase_db a) sid (now f) = Ok o ->
  returned o = true ->
  exists a',
    recognize_face face_distance a f = Ok (a', (location f, sid, Green))
    /\ firebase_db a' = stored o
    /\ serial_connection a' = None
    /\ logger a'
       = logger a ++ [ InfoAttendanceMarked sid;
                       ErrorSerialNotAvailable;
                       ErrorFailedToTriggerLED ].
Proof.
  intros Hs Hm Ho Hr.
  eexists. split.
  - unfold recognize_face. rewrite Hm. reflexivity.
  - unfold attend. rewrite Ho, Hr.
    unfold trigger_led_blink. simpl. rewrite Hs. simpl.
    rewrite <- !app_assoc. auto.
Qed.

End Construction.

Lemma init_then_recognize_witness :
  exists drawn,
    snd (recognize_faces point_distance
           (two_faces_app (Some open_serial) gallery_store)
           (Some [ {| location := (10, 90, 90, 10);
                      face_encoding := (0 # 1)%Q;
                      now := at_time monday_2024_01_08 9 30 0 |} ]))
    = Some drawn
    /\ map (fun ann : annotation => fst (fst ann)) drawn = [ (10, 90, 90, 10) ].
Proof.
  apply (init_then_recognize Q point_distance (Some open_serial)
           gallery_store (Some example_listing) [InfoSerialEstablished]
           (two_faces_app (Some open_serial) gallery_store)).
  reflexivity.
Defined.

Lemma recognize_face_without_serial_witness :
  let a := two_faces_app None gallery_store in
  let f := {| location := (10, 90, 90, 10); face_encoding := (0 # 1)%Q;
              now := at_time monday_2024_01_08 9 30 0 |} in
  exists a',
    recognize_face point_distance a f
    = Ok (a', (location f, "000001", Green))
    /\ firebase_db a'
       = push_attendance gallery_store
           {| rec_course_id := "CSE002"; rec_student_id := "000001";
              rec_date := monday_2024_01_08; rec_timestamp := now f;
              rec_status := "present" |}
    /\ serial_connection a' = None
    /\ logger a'
       = logger a ++ [ InfoAttendanceMarked "000001";
                       ErrorSerialNotAvailable;
                       ErrorFailedToTriggerLED ].
Proof.
  intros a f.
  apply (recognize_face_without_serial Q point_distance a f "000001"
           {| returned := true;
              stored := push_attendance gallery_store
                          {| rec_course_id := "CSE002";
                             rec_student_id := "000001";
                             rec_date := monday_2024_01_08;
                             rec_timestamp := now f;
                             rec_status := "present" |};
              stdout := [AttendanceMarked "000001" "CSE002"] |}).
  - reflexivity.
  - reflexivity.
  - vm_compute. reflexivity.
  - reflexivity.
Defined.

(** ** Administration: rows with the same id *)

(** X24. [create_student] does not look for an existing row: for an id that
    is already there a second row is pushed behind the first, and the
    schedule resolver goes on reading the first. *)
Theorem create_student_again (d : database) sid name email timestamp :
  (exists r, In r (student_rows d) /\ student_id (row_student r) = sid) ->
  let d' := snd (create_student d sid name email) in
  List.length (filter (is_student sid) (student_rows d'))
  = S (List.length (filter (is_student sid) (student_rows d)))
  /\ find_current_course (view d') sid timestamp
     = find_current_course (view d) sid timestamp.
Proof.
  intros [r [Hin Hr]] d'. subst d'. unfold create_student; simpl.
  split.
  - rewrite filter_app, length_app. simpl. unfold is_student at 2; simpl.
    rewrite String.eqb_refl. simpl. lia.
  - unfold find_current_course.
    rewrite !students_by_id_view. simpl.
    rewrite filter_app, map_app.
    destruct (filter (is_student sid) (student_rows d)) as [|st rest] eqn:E.
    + exfalso.
      pose proof (filter_nil_forall _ _ E) as Hall.
      rewrite Forall_forall in Hall. specialize (Hall r Hin).
      unfold is_student in Hall. apply String.eqb_neq in Hall. contradiction.
    + reflexivity.
Qed.

Lemma create_student_again_witness :
  let d := {| student_rows :=
                [ {| row_student := {| student_id := "000004";
                                       enrolled_courses := ["CSE002"] |};
                     student_name := "Obaid Sajjad";
                     student_email := "hilmand.atk@gmail.com" |} ];
              course_rows := [];
              attendance_rows := [] |} in
  let d' := snd (create_student d "000004" "Obaid" "obaid@example.org") in
  List.length (filter (is_student "000004") (student_rows d'))
  = S (List.length (filter (is_student "000004") (student_rows d)))
  /\ find_current_course (view d') "000004" (at_time monday_2024_01_08 9 0 0)
     = find_current_course (view d) "000004" (at_time monday_2024_01_08 9 0 0).
Proof.
  intros d.
  apply (create_student_again d "000004" "Obaid" "obaid@example.org"
           (at_time monday_2024_01_08 9 0 0)).
  eexists. split; [left; reflexivity | reflexivity].
Defined.
